(** * pkg/controller/util.go of tikv-operator: event routing, conflict-safe
    update and error classification

    A shallow embedding of the controller utilities: the two error wrappers
    ([RequeueError], [IgnoreError]), the informer event handlers installed by
    [WatchForObject] and [WatchForController], and [GuaranteedUpdate].

    The Kubernetes and Go library functions that the file calls
    (apimachinery, client-go, controller-runtime, fmt) are embedded next to
    their callers, each under the name it has in its package. *)

From Stdlib Require Import String Ascii List Arith ZArith Lia.
From stdpp Require Import base option list strings gmap.

Open Scope string_scope.
Open Scope list_scope.

(** ** Go errors *)

(** metav1.StatusReason is a Go string type. *)
Definition StatusReason := string.
Definition StatusReasonUnknown : StatusReason := "".
Definition StatusReasonNotFound : StatusReason := "NotFound".
Definition StatusReasonConflict : StatusReason := "Conflict".

(** The dynamic types an [error] interface value has in this file.  A nil
    [error] is [None : option error]. *)
Inductive error :=
  | RequeueError (s : string)                          (* *RequeueError *)
  | IgnoreError (s : string)                           (* *IgnoreError *)
  | errorString (s : string)                           (* errors.New *)
  | wrapError (msg : string) (err : error)             (* fmt.Errorf with %w *)
  | StatusError (reason : StatusReason) (message : string) (* *errors.StatusError *)
  | ErrWaitTimeout.                                    (* the wait package's sentinel *)

Global Instance error_eq_dec : EqDecision error.
Proof. solve_decision. Defined.

(** The [Error() string] method. *)
Definition Error (e : error) : string :=
  match e with
  | RequeueError s => s
  | IgnoreError s => s
  | errorString s => s
  | wrapError msg _ => msg
  | StatusError _ message => message
  | ErrWaitTimeout => "timed out waiting for the condition"
  end.

(** k8s.io/apimachinery/pkg/api/errors: the reason is read off a value that
    implements APIStatus, anything else has the unknown reason. *)
Definition ReasonForError (err : error) : StatusReason :=
  match err with
  | StatusError reason _ => reason
  | _ => StatusReasonUnknown
  end.

Definition IsConflict (err : error) : bool :=
  bool_decide (ReasonForError err = StatusReasonConflict).

Definition IsNotFound (err : error) : bool :=
  bool_decide (ReasonForError err = StatusReasonNotFound).

(** meta.Accessor's error. *)
Definition errNotObject : error :=
  errorString "object does not implement the Object interfaces".

(** ** Objects *)

Module OwnerReference.
Record t := mk {
  APIVersion : string;
  Kind : string;
  Name : string;
  UID : string;
  Controller : option bool;          (* *bool *)
  BlockOwnerDeletion : option bool   (* *bool *)
}.
End OwnerReference.

Module ObjectMeta.
(** A nil Go map reads like the empty map, so [Labels] and [Annotations]
    are plain finite maps. *)
Record t := mk {
  Name : string;
  Namespace : string;
  UID : string;
  ResourceVersion : string;
  Generation : Z;
  Labels : gmap string string;
  Annotations : gmap string string;
  OwnerReferences : list OwnerReference.t
}.
End ObjectMeta.

Module GroupVersion.
Record t := mk { Group : string; Version : string }.
Definition empty : t := mk "" "".
End GroupVersion.

Module GroupVersionKind.
Record t := mk { Group : string; Version : string; Kind : string }.
End GroupVersionKind.

(** A value behind the runtime.Object interface.  [ObjectKind] is what
    [GetObjectKind().GroupVersionKind()] returns; [Meta] is [None] when the
    value does not implement metav1.Object; [Content] stands for every other
    field (spec, status, ...). *)
Record RuntimeObject := mkRuntimeObject {
  ObjectKind : GroupVersionKind.t;
  Meta : option ObjectMeta.t;
  Content : string
}.

Global Instance OwnerReference_eq_dec : EqDecision OwnerReference.t.
Proof. solve_decision. Defined.
Global Instance ObjectMeta_eq_dec : EqDecision ObjectMeta.t.
Proof. solve_decision. Defined.
Global Instance GroupVersionKind_eq_dec : EqDecision GroupVersionKind.t.
Proof. solve_decision. Defined.
Global Instance RuntimeObject_eq_dec : EqDecision RuntimeObject.
Proof. solve_decision. Defined.

(** The [interface{}] values an informer hands to its event handlers. *)
Inductive payload :=
  | Object (o : RuntimeObject)
  | DeletedFinalStateUnknown (Key : string) (Obj : payload)  (* cache tombstone *)
  | ExplicitKey (key : string)                               (* cache.ExplicitKey *)
  | Opaque (v : string).               (* nil, or a value with none of the interfaces *)

(** Operands of the fmt functions. *)
Inductive any :=
  | a_string (s : string)
  | a_int (n : Z)
  | a_error (e : option error)
  | a_value (p : payload)
  | a_ref (r : OwnerReference.t).

(** ** fmt *)

(** The printer behind [fmt.Sprintf] and [fmt.Errorf]: from the [wrapErrs]
    flag, the format and the operands to the buffer and the operand of a
    [%w] verb, if any.  Its rules are left open. *)
Class Printer := doPrintf : bool → string → list any → string * option error.

Section fmt.
Context `{Printer}.

Definition Sprintf (format : string) (a : list any) : string :=
  (doPrintf false format a).1.

Definition Errorf (format : string) (a : list any) : error :=
  let '(s, wrappedErr) := doPrintf true format a in
  match wrappedErr with
  | None => errorString s
  | Some err => wrapError s err
  end.

(** ** Error classifier (util.go, lines 61-99) *)

Definition RequeueErrorf (format : string) (a : list any) : error :=
  RequeueError (Sprintf format a).

Definition IgnoreErrorf (format : string) (a : list any) : error :=
  IgnoreError (Sprintf format a).
End fmt.

(** The type assertion of [err] to a pointer to RequeueError. *)
Definition IsRequeueError (err : option error) : bool :=
  match err with
  | Some (RequeueError _) => true
  | _ => false
  end.

(** The type assertion of [err] to a pointer to IgnoreError. *)
Definition IsIgnoreError (err : option error) : bool :=
  match err with
  | Some (IgnoreError _) => true
  | _ => false
  end.

(** ** Key codec (k8s.io/client-go/tools/cache, k8s.io/apimachinery meta) *)

Inductive result (A : Type) :=
  | Ok (a : A)
  | Err (err : error).
Arguments Ok {A} a.
Arguments Err {A} err.

(** The type assertion of an event payload to metav1.Object. *)
Definition as_metav1_Object (obj : payload) : option ObjectMeta.t :=
  match obj with
  | Object o => Meta o
  | _ => None
  end.

(** meta.Accessor *)
Definition Accessor (obj : payload) : result ObjectMeta.t :=
  match as_metav1_Object obj with
  | Some t => Ok t
  | None => Err errNotObject
  end.

Section KeyCodec.
Context `{Printer}.

(** cache.MetaNamespaceKeyFunc *)
Definition MetaNamespaceKeyFunc (obj : payload) : result string :=
  match obj with
  | ExplicitKey key => Ok key
  | _ =>
    match Accessor obj with
    | Err err => Err (Errorf "object has no meta: %v" [a_error (Some err)])
    | Ok meta =>
      if (0 <? String.length (ObjectMeta.Namespace meta))%nat
      then Ok (ObjectMeta.Namespace meta +:+ "/" +:+ ObjectMeta.Name meta)
      else Ok (ObjectMeta.Name meta)
    end
  end.

(** cache.DeletionHandlingMetaNamespaceKeyFunc *)
Definition DeletionHandlingMetaNamespaceKeyFunc (obj : payload) : result string :=
  match obj with
  | DeletedFinalStateUnknown Key _ => Ok Key
  | _ => MetaNamespaceKeyFunc obj
  end.
End KeyCodec.

(** ** Owner references and group versions *)

(** metav1.GetControllerOf: the first owner reference whose [Controller]
    pointer is set and true. *)
Definition GetControllerOf (controllee : ObjectMeta.t) : option OwnerReference.t :=
  List.find (λ ref, match OwnerReference.Controller ref with
                    | Some true => true
                    | _ => false
                    end)
            (ObjectMeta.OwnerReferences controllee).

(** strings.Count for a one-byte separator. *)
Fixpoint Count (s : string) (sep : ascii) : nat :=
  match s with
  | EmptyString => 0
  | String c s' => (if Ascii.eqb c sep then 1 else 0) + Count s' sep
  end.

(** strings.Index for a one-byte separator. *)
Fixpoint Index (s : string) (sep : ascii) : option nat :=
  match s with
  | EmptyString => None
  | String c s' => if Ascii.eqb c sep then Some 0 else S <$> Index s' sep
  end.

Section GroupVersions.
Context `{Printer}.

(** schema.ParseGroupVersion *)
Definition ParseGroupVersion (gv : string) : result GroupVersion.t :=
  if (String.length gv =? 0)%nat || bool_decide (gv = "/") then Ok GroupVersion.empty
  else
    match Count gv "/", Index gv "/" with
    | 0%nat, _ => Ok (GroupVersion.mk "" gv)
    | 1%nat, Some i =>
      Ok (GroupVersion.mk (substring 0 i gv)
                          (substring (i + 1) (String.length gv - (i + 1)) gv))%nat
    | _, _ => Err (Errorf "unexpected GroupVersion string: %v" [a_string gv])
    end.
End GroupVersions.

(** Modelled from the spec: util.IsSubMapOf of pkg/util, which is not among
    the sources.  The spec asks that the labels be a superset of the
    filter, with an exact key/value match for every required pair. *)
Definition IsSubMapOf (first second : gmap string string) : bool :=
  bool_decide (first ⊆ second).

(** ** Event router (util.go, lines 331-405) *)

(** What the handlers act on: the work queue [q] (the items passed to
    [q.Add], oldest first), the errors given to [utilruntime.HandleError],
    and the lines written through [klog.V(4)]. *)
Record Env := mkEnv {
  q : list string;
  handled : list error;
  klogV4 : list string
}.

Definition q_Add (item : string) (w : Env) : Env :=
  mkEnv (q w ++ [item]) (handled w) (klogV4 w).

Definition HandleError (err : error) (w : Env) : Env :=
  mkEnv (q w) (handled w ++ [err]) (klogV4 w).

Definition klog_V4_Info (line : string) (w : Env) : Env :=
  mkEnv (q w) (handled w) (klogV4 w ++ [line]).

(** A handler call either returns or panics. *)
Inductive Outcome := Returned | Panicked.

Definition Handler := Env → Env * Outcome.

(** cache.ResourceEventHandlerFuncs *)
Record ResourceEventHandlerFuncs := mkHandlerFuncs {
  AddFunc : payload → Handler;
  UpdateFunc : payload → payload → Handler;
  DeleteFunc : payload → Handler
}.

(** The notifications of an informer. *)
Inductive Event :=
  | OnAdd (obj : payload)
  | OnUpdate (oldObj newObj : payload)
  | OnDelete (obj : payload).

Definition deliver (h : ResourceEventHandlerFuncs) (e : Event) : Handler :=
  match e with
  | OnAdd obj => AddFunc h obj
  | OnUpdate oldObj newObj => UpdateFunc h oldObj newObj
  | OnDelete obj => DeleteFunc h obj
  end.

(** The events are delivered in order; a panic ends the process. *)
Fixpoint deliver_all (h : ResourceEventHandlerFuncs) (es : list Event) (w : Env)
  : Env * Outcome :=
  match es with
  | [] => (w, Returned)
  | e :: es' =>
    match deliver h e w with
    | (w', Returned) => deliver_all h es' w'
    | (w', Panicked) => (w', Panicked)
    end
  end.

(** cache.SharedIndexInformer, as far as [AddEventHandler] goes. *)
Definition SharedIndexInformer := list ResourceEventHandlerFuncs.

Definition AddEventHandler (informer : SharedIndexInformer)
    (handler : ResourceEventHandlerFuncs) : SharedIndexInformer :=
  (informer ++ [handler])%list.

(** [GetControllerFn]: the object and the error are returned side by side,
    as in Go; [None] is nil. *)
Definition GetControllerFn := string → string → option RuntimeObject * option error.

Section EventRouter.
Context `{Printer}.

(** The [enqueueFn] closure of [WatchForObject]. *)
Definition WatchForObject_enqueueFn (obj : payload) : Handler := λ w,
  match DeletionHandlingMetaNamespaceKeyFunc obj with
  | Err err =>
    (HandleError (Errorf "Cound't get key for object %+v: %v"
                         [a_value obj; a_error (Some err)]) w, Returned)
  | Ok key => (q_Add key w, Returned)
  end.

Definition WatchForObject_handler : ResourceEventHandlerFuncs :=
  {| AddFunc := WatchForObject_enqueueFn;
     UpdateFunc := λ _ cur, WatchForObject_enqueueFn cur;
     DeleteFunc := WatchForObject_enqueueFn |}.

Definition WatchForObject (informer : SharedIndexInformer) : SharedIndexInformer :=
  AddEventHandler informer WatchForObject_handler.

(** The [enqueueFn] closure of [WatchForController]; [m] is [None] for a
    nil filter. *)
Definition WatchForController_enqueueFn (fn : GetControllerFn)
    (m : option (gmap string string)) (obj : payload) : Handler := λ w,
  match as_metav1_Object obj with
  | None =>
    (HandleError (Errorf "%+v is not a runtime.Object, cannot get controller from it"
                         [a_value obj]) w, Returned)
  | Some meta =>
    if match m with
       | Some m => negb (IsSubMapOf m (ObjectMeta.Labels meta))
       | None => false
       end
    then (w, Returned)
    else
      match GetControllerOf meta with
      | None => (w, Returned)
      | Some ref =>
        match ParseGroupVersion (OwnerReference.APIVersion ref) with
        | Err _ =>
          (HandleError
             (Errorf "cannot parse group version for the controller %v of %s/%s"
                     [a_ref ref; a_string (ObjectMeta.Namespace meta);
                      a_string (ObjectMeta.Name meta)]) w, Returned)
        | Ok refGV =>
          match fn (ObjectMeta.Namespace meta) (OwnerReference.Name ref) with
          | (_, Some err) =>
            if IsNotFound err
            then (klog_V4_Info
                    (Sprintf "controller %s/%s of %s/%s not found, ignore"
                             [a_string (ObjectMeta.Namespace meta);
                              a_string (OwnerReference.Name ref);
                              a_string (ObjectMeta.Namespace meta);
                              a_string (ObjectMeta.Name meta)]) w, Returned)
            else (HandleError
                    (Errorf "cannot get controller %s/%s of %s/%s"
                            [a_string (ObjectMeta.Namespace meta);
                             a_string (OwnerReference.Name ref);
                             a_string (ObjectMeta.Namespace meta);
                             a_string (ObjectMeta.Name meta)]) w, Returned)
          | (None, None) => (w, Panicked)   (* method call on a nil interface *)
          | (Some controllerObj, None) =>
            if bool_decide (OwnerReference.Kind ref
                            = GroupVersionKind.Kind (ObjectKind controllerObj))
               && bool_decide (GroupVersion.Group refGV
                               = GroupVersionKind.Group (ObjectKind controllerObj))
            then
              match DeletionHandlingMetaNamespaceKeyFunc (Object controllerObj) with
              | Err err =>
                (HandleError (Errorf "Cound't get key for object %+v: %v"
                                     [a_value (Object controllerObj);
                                      a_error (Some err)]) w, Returned)
              | Ok key => (q_Add key w, Returned)
              end
            else (w, Returned)
          end
        end
      end
  end.

Definition WatchForController_handler (fn : GetControllerFn)
    (m : option (gmap string string)) : ResourceEventHandlerFuncs :=
  {| AddFunc := WatchForController_enqueueFn fn m;
     UpdateFunc := λ _ cur, WatchForController_enqueueFn fn m cur;
     DeleteFunc := WatchForController_enqueueFn fn m |}.

Definition WatchForController (informer : SharedIndexInformer)
    (fn : GetControllerFn) (m : option (gmap string string)) : SharedIndexInformer :=
  AddEventHandler informer (WatchForController_handler fn m).
End EventRouter.

(** An event reaches the registered handlers in registration order. *)
Fixpoint notify (informer : SharedIndexInformer) (e : Event) (w : Env) : Env * Outcome :=
  match informer with
  | [] => (w, Returned)
  | h :: informer' =>
    match deliver h e w with
    | (w', Returned) => notify informer' e w'
    | (w', Panicked) => (w', Panicked)
    end
  end.

(** ** Retry on conflict (k8s.io/apimachinery wait, k8s.io/client-go retry) *)

(** wait.Backoff; only [Steps] bears on what is called, the durations are
    slept away. *)
Record Backoff := mkBackoff {
  Steps : nat;
  Duration_ms : nat
}.

(** retry.DefaultRetry *)
Definition DefaultRetry : Backoff := mkBackoff 5 10.

Definition is_nil {A} (x : option A) : bool :=
  match x with None => true | Some _ => false end.

(** wait.ExponentialBackoff, over the state [S] that [condition] acts on:
    [condition] is tried while steps remain; the loop is left without a
    sleep when the last step has been used. *)
Fixpoint ExponentialBackoff {S : Type} (steps : nat)
    (condition : S → S * (bool * option error)) (s : S) : S * option error :=
  match steps with
  | 0 => (s, Some ErrWaitTimeout)
  | Datatypes.S n =>
    let '(s', (ok, err)) := condition s in
    if negb (is_nil err) || ok then (s', err)
    else if (n =? 0)%nat then (s', Some ErrWaitTimeout)
    else ExponentialBackoff n condition s'
  end.

(** The condition that [retry.OnError] hands to [wait.ExponentialBackoff];
    the captured variable [lastErr] travels with the state. *)
Definition OnError_condition {S : Type} (retriable : error → bool)
    (fn : S → S * option error) : S * option error → (S * option error) * (bool * option error) :=
  λ '(s, lastErr),
    match fn s with
    | (s', None) => ((s', lastErr), (true, None))
    | (s', Some err) =>
      if retriable err then ((s', Some err), (false, None))
      else ((s', lastErr), (false, Some err))
    end.

(** retry.OnError *)
Definition OnError {S : Type} (backoff : Backoff) (retriable : error → bool)
    (fn : S → S * option error) (s : S) : S * option error :=
  let '((s', lastErr), err) :=
    ExponentialBackoff (Steps backoff) (OnError_condition retriable fn) (s, None) in
  if bool_decide (err = Some ErrWaitTimeout) then (s', lastErr) else (s', err).

(** retry.RetryOnConflict *)
Definition RetryOnConflict {S : Type} (backoff : Backoff)
    (fn : S → S * option error) (s : S) : S * option error :=
  OnError backoff IsConflict fn s.

(** ** Guaranteed updater (util.go, lines 442-462) *)

(** client.ObjectKey *)
Record ObjectKey := mkObjectKey {
  key_Namespace : string;
  key_Name : string
}.

(** client.ObjectKeyFromObject *)
Definition ObjectKeyFromObject (obj : RuntimeObject) : result ObjectKey :=
  match Accessor (Object obj) with
  | Err err => Err err
  | Ok accessor => Ok (mkObjectKey (ObjectMeta.Namespace accessor) (ObjectMeta.Name accessor))
  end.

(** The calls that [GuaranteedUpdate] makes, each with the error it got
    back. *)
Inductive Call :=
  | CallGet (key : ObjectKey) (err : option error)
  | CallUpdateFunc (err : option error)
  | CallUpdate (obj : RuntimeObject) (err : option error).

Section GuaranteedUpdate.
(** [World] is whatever lies behind the store client and the variables
    that [updateFunc] captures, other than [obj] itself. *)
Context {World : Type}.

(** The part of client.Client that is used.  Both calls receive the
    object behind the pointer and leave a new one there. *)
Record Client := mkClient {
  Get : ObjectKey → RuntimeObject → World → RuntimeObject * World * option error;
  Update : RuntimeObject → World → RuntimeObject * World * option error
}.

(** The type of [updateFunc], a [func() error] that reads and writes the
    object it has captured. *)
Definition Mutation := RuntimeObject → World → RuntimeObject * World * option error.

(** The object behind [obj], the world, and the calls made so far. *)
Record State := mkState {
  st_obj : RuntimeObject;
  st_world : World;
  st_calls : list Call
}.

(** apiequality.Semantic.DeepEqual *)
Variable DeepEqual : RuntimeObject → RuntimeObject → bool.

Variable cli : Client.
Variable updateFunc : Mutation.

(** The closure given to [retry.RetryOnConflict]. *)
Definition GuaranteedUpdate_attempt (key : ObjectKey) (s : State) : State * option error :=
  let '(obj1, w1, err) := Get cli key (st_obj s) (st_world s) in
  let calls1 := (st_calls s ++ [CallGet key err])%list in
  match err with
  | Some err => (mkState obj1 w1 calls1, Some err)
  | None =>
    let beforeMutation := obj1 in            (* obj.DeepCopyObject() *)
    let '(obj2, w2, err) := updateFunc obj1 w1 in
    let calls2 := (calls1 ++ [CallUpdateFunc err])%list in
    match err with
    | Some err => (mkState obj2 w2 calls2, Some err)
    | None =>
      if DeepEqual obj2 beforeMutation then (mkState obj2 w2 calls2, None)
      else
        let '(obj3, w3, err) := Update cli obj2 w2 in
        (mkState obj3 w3 (calls2 ++ [CallUpdate obj2 err])%list, err)
    end
  end.

Definition GuaranteedUpdate (obj : RuntimeObject) (w : World) : State * option error :=
  match ObjectKeyFromObject obj with
  | Err err => (mkState obj w [], Some err)
  | Ok key => RetryOnConflict DefaultRetry (GuaranteedUpdate_attempt key) (mkState obj w [])
  end.
End GuaranteedUpdate.
Arguments Client : clear implicits.
Arguments Mutation : clear implicits.
Arguments State : clear implicits.

(** ** Vocabulary of the statements *)

(** The object an event is about: the only one [OnAdd] and [OnDelete]
    carry, the new one of [OnUpdate]. *)
Definition current (e : Event) : payload :=
  match e with
  | OnAdd obj => obj
  | OnUpdate _ newObj => newObj
  | OnDelete obj => obj
  end.

(** [rs] lists the results of calling [fn] again and again, each call
    starting in the state the one before it left. *)
Fixpoint chain {S R : Type} (fn : S → S * R) (s : S) (rs : list (S * R)) : Prop :=
  match rs with
  | [] => True
  | r :: rs' => fn s = r ∧ chain fn r.1 rs'
  end.

Definition is_CallGet (c : Call) : bool :=
  match c with CallGet _ _ => true | _ => false end.

Definition is_CallUpdate (c : Call) : bool :=
  match c with CallUpdate _ _ => true | _ => false end.

(** The key of the object named [name] in [ns]: the name alone for a
    cluster-scoped object. *)
Definition KeyOf (ns name : string) : string :=
  if (0 <? String.length ns)%nat then ns +:+ "/" +:+ name else name.

(** [obj] is a live object with metadata, named [name] in [ns]. *)
Definition identifies (ns name : string) (obj : payload) : Prop :=
  ∃ o meta, obj = Object o ∧ Meta o = Some meta
            ∧ ObjectMeta.Namespace meta = ns ∧ ObjectMeta.Name meta = name.

(** [e] is an event on the object named [name] in [ns]: it carries the live
    object, or it is a delete that carries a tombstone with the key the
    object was stored under. *)
Definition about (ns name : string) (e : Event) : Prop :=
  identifies ns name (current e)
  ∨ ∃ Obj, e = OnDelete (DeletedFinalStateUnknown (KeyOf ns name) Obj).


(** A cycle that ended in an error that [retriable] accepts. *)
Definition ended_retriable {S : Type} (retriable : error → bool)
    (r : S * option error) : Prop :=
  ∃ c, r.2 = Some c ∧ retriable c = true.

(** The number of fetches among the calls made. *)
Definition fetches (calls : list Call) : nat :=
  length (List.filter is_CallGet calls).

(** The number of writes among the calls made. *)
Definition writes (calls : list Call) : nat :=
  length (List.filter is_CallUpdate calls).

(** ** Sample inputs *)

(** A printer that copies the format and drops the operands, to run the
    handlers on the samples below. *)
Definition verbatim : Printer := λ _ format _, (format, None).

Definition no_events : Env := mkEnv [] [] [].

Definition cluster_ref : OwnerReference.t :=
  OwnerReference.mk "tikv.org/v1alpha1" "TikvCluster" "basic" "c0ffee" (Some true) (Some true).

Definition basic_cluster : RuntimeObject :=
  mkRuntimeObject (GroupVersionKind.mk "tikv.org" "v1alpha1" "TikvCluster")
                  (Some (ObjectMeta.mk "basic" "default" "c0ffee" "41" 1 ∅ ∅ []))
                  "pd.replicas=3".

Definition basic_key : ObjectKey := mkObjectKey "default" "basic".

Definition managed_by_filter : gmap string string :=
  {[ "app.kubernetes.io/managed-by" := "tikv-operator" ]}.

Definition tikv_labels : gmap string string :=
  {[ "app.kubernetes.io/managed-by" := "tikv-operator";
     "app.kubernetes.io/component" := "tikv" ]}.

Definition component_label : gmap string string :=
  {[ "app.kubernetes.io/component" := "tikv" ]}.

(** The StatefulSet of the TiKV members of [basic_cluster]. *)
Definition tikv_set_meta (labels : gmap string string) (resourceVersion : string)
  : ObjectMeta.t :=
  ObjectMeta.mk "basic-tikv" "default" "5e7" resourceVersion 1 labels ∅ [cluster_ref].

Definition tikv_set (labels : gmap string string) (resourceVersion content : string)
  : RuntimeObject :=
  mkRuntimeObject (GroupVersionKind.mk "apps" "v1" "StatefulSet")
                  (Some (tikv_set_meta labels resourceVersion)) content.

(** The life of the StatefulSet: added, updated, and deleted with only a
    tombstone left. *)
Definition tikv_set_events : list Event :=
  [ OnAdd (Object (tikv_set tikv_labels "11" "replicas=3"));
    OnUpdate (Object (tikv_set tikv_labels "11" "replicas=3"))
             (Object (tikv_set tikv_labels "12" "replicas=5"));
    OnDelete (DeletedFinalStateUnknown "default/basic-tikv" (Opaque "nil")) ].

(** A StatefulSet of the cluster that has the name of the cluster. *)
Definition namesake_set : RuntimeObject :=
  mkRuntimeObject (GroupVersionKind.mk "apps" "v1" "StatefulSet")
                  (Some (ObjectMeta.mk "basic" "default" "5e8" "3" 1 tikv_labels ∅
                                       [cluster_ref]))
                  "replicas=1".

(** A runtime.Object without metadata. *)
Definition bare_object : RuntimeObject :=
  mkRuntimeObject (GroupVersionKind.mk "" "v1" "Status") None "".

(** A lister of TikvClusters that holds [basic_cluster]. *)
Definition cluster_lister : GetControllerFn := λ ns name,
  if bool_decide (ns = "default") && bool_decide (name = "basic")
  then (Some basic_cluster, None)
  else (None, Some (StatusError StatusReasonNotFound "tikvcluster not found")).

(** A lister that holds an object of another kind under the same name. *)
Definition basic_configmap : RuntimeObject :=
  mkRuntimeObject (GroupVersionKind.mk "" "v1" "ConfigMap")
                  (Some (ObjectMeta.mk "basic" "default" "cafe" "3" 1 ∅ ∅ []))
                  "data".

Definition configmap_lister : GetControllerFn := λ _ _, (Some basic_configmap, None).

(** A store that holds one object and refuses the next [conflicts_left]
    writes with a conflict; [mutations] counts the calls of the sample
    update functions. *)
Record Store := mkStore {
  stored : RuntimeObject;
  conflicts_left : nat;
  mutations : nat
}.

Definition conflict : error :=
  StatusError StatusReasonConflict "the object has been modified".

Definition store_cli : Client Store :=
  {| Get := λ _ _ st, (stored st, st, None);
     Update := λ obj st,
       match conflicts_left st with
       | 0 => (obj, mkStore obj 0 (mutations st), None)
       | Datatypes.S n => (obj, mkStore (stored st) n (mutations st), Some conflict)
       end |}.

Definition with_content (content : string) (obj : RuntimeObject) : RuntimeObject :=
  mkRuntimeObject (ObjectKind obj) (Meta obj) content.

Definition counted (st : Store) : Store :=
  mkStore (stored st) (conflicts_left st) (Datatypes.S (mutations st)).

Definition leave_alone : Mutation Store := λ obj st, (obj, counted st, None).

Definition set_content (content : string) : Mutation Store := λ obj st,
  (with_content content obj, counted st, None).

Definition failing (err : error) : Mutation Store := λ obj st,
  (obj, counted st, Some err).

(** Fails with a conflict the first time it is called, sets the content
    afterwards. *)
Definition conflict_once (content : string) : Mutation Store := λ obj st,
  match mutations st with
  | 0 => (obj, counted st, Some conflict)
  | _ => (with_content content obj, counted st, None)
  end.

Definition same_object (a b : RuntimeObject) : bool := bool_decide (a = b).

(** ** Owner reference of a TikvCluster (util.go, lines 39-41 and 101-113) *)

(** v1alpha1.TikvCluster, as far as this file reads it; [tc_Content] stands
    for the spec and the status. *)
Record TikvCluster := mkTikvCluster {
  tc_TypeMeta : GroupVersionKind.t;
  tc_ObjectMeta : ObjectMeta.t;
  tc_Content : string
}.

(** A TikvCluster behind the runtime.Object interface. *)
Definition TikvCluster_Object (tc : TikvCluster) : RuntimeObject :=
  mkRuntimeObject (tc_TypeMeta tc) (Some (tc_ObjectMeta tc)) (tc_Content tc).

(** schema.GroupVersion.Empty *)
Definition GroupVersion_Empty (gv : GroupVersion.t) : bool :=
  (String.length (GroupVersion.Group gv) =? 0)%nat
  && (String.length (GroupVersion.Version gv) =? 0)%nat.

(** schema.GroupVersion.String *)
Definition GroupVersion_String (gv : GroupVersion.t) : string :=
  if GroupVersion_Empty gv then ""
  else if (String.length (GroupVersion.Group gv) =? 0)%nat
          && bool_decide (GroupVersion.Version gv = "v1")
  then GroupVersion.Version gv
  else if (0 <? String.length (GroupVersion.Group gv))%nat
  then GroupVersion.Group gv +:+ "/" +:+ GroupVersion.Version gv
  else GroupVersion.Version gv.

(** schema.GroupVersion.WithKind *)
Definition WithKind (gv : GroupVersion.t) (kind : string) : GroupVersionKind.t :=
  GroupVersionKind.mk (GroupVersion.Group gv) (GroupVersion.Version gv) kind.

(** schema.GroupVersionKind.GroupVersion *)
Definition GroupVersionKind_GroupVersion (gvk : GroupVersionKind.t) : GroupVersion.t :=
  GroupVersion.mk (GroupVersionKind.Group gvk) (GroupVersionKind.Version gvk).

Section ControllerKind.
(** v1alpha1.SchemeGroupVersion, declared outside this file. *)
Variable SchemeGroupVersion : GroupVersion.t.

Definition ControllerKind : GroupVersionKind.t :=
  WithKind SchemeGroupVersion "TikvCluster".

Definition GetOwnerRef (tc : TikvCluster) : OwnerReference.t :=
  let controller := true in
  let blockOwnerDeletion := true in
  OwnerReference.mk
    (GroupVersion_String (GroupVersionKind_GroupVersion ControllerKind))
    (GroupVersionKind.Kind ControllerKind)
    (ObjectMeta.Name (tc_ObjectMeta tc))
    (ObjectMeta.UID (tc_ObjectMeta tc))
    (Some controller)
    (Some blockOwnerDeletion).
End ControllerKind.

(** ** Resources (util.go, lines 115-139 and 230-254) *)

(** resource.Quantity, as far as this file uses it: what [AsInt64] returns
    ([None] when the quantity does not fit an int64) and what [String]
    returns. *)
Record Quantity := mkQuantity {
  AsInt64 : option Z;
  Quantity_String : string
}.

(** corev1.ResourceList is a Go map from resource names to quantities;
    [None] is the nil map. *)
Abbreviation ResourceList := (option (gmap string Quantity)).

Definition ResourceStorage : string := "storage".

(** humanize.GiByte and humanize.MiByte *)
Definition GiByte : Z := 1073741824.
Definition MiByte : Z := 1048576.

(** corev1.ResourceRequirements *)
Record ResourceRequirements := mkResourceRequirements {
  Limits : ResourceList;
  Requests : ResourceList
}.

Section Resources.
Context `{Printer}.

(** The string, and the lines given to [klog.Errorf].  Go's [/] and [%]
    on int64 truncate toward zero. *)
Definition TiKVCapacity (limits : ResourceList) : string * list string :=
  let defaultArgs := "0" in
  match limits with
  | None => (defaultArgs, [])
  | Some limits =>
    match limits !! ResourceStorage with
    | None => (defaultArgs, [])
    | Some q =>
      match AsInt64 q with
      | None =>
        (defaultArgs,
         [Sprintf "quantity %s can't be converted to int64" [a_string (Quantity_String q)]])
      | Some i =>
        if (Z.rem i GiByte =? 0)%Z
        then (Sprintf "%dGB" [a_int (Z.quot i GiByte)], [])
        else (Sprintf "%dMB" [a_int (Z.quot i MiByte)], [])
      end
    end
  end.

Definition ParseStorageRequest (req : ResourceList) : ResourceRequirements * option error :=
  match req with
  | None => (mkResourceRequirements None None, None)
  | Some req =>
    match req !! ResourceStorage with
    | None => (mkResourceRequirements None None, Some (Errorf "storage request is not set" []))
    | Some q => (mkResourceRequirements None (Some {[ ResourceStorage := q ]}), None)
    end
  end.
End Resources.

(** [DeepCopy] keeps a nil map nil; [delete] on the copy leaves [req]
    alone. *)
Definition ContainerResource (req : ResourceRequirements) : ResourceRequirements :=
  let trimmed := req in
  let trimmed :=
    match Limits trimmed with
    | Some limits => mkResourceRequirements (Some (delete ResourceStorage limits)) (Requests trimmed)
    | None => trimmed
    end in
  match Requests trimmed with
  | Some requests => mkResourceRequirements (Limits trimmed) (Some (delete ResourceStorage requests))
  | None => trimmed
  end.

(** ** ConfigMap names and string maps (util.go, lines 256-281) *)

Section ConfigMapNames.
Context `{Printer}.
(** The [String] method of v1alpha1.MemberType, a Go string type declared
    outside this file. *)
Variable MemberType_String : string → string.

(** A nil [Annotations] map reads like the empty one, and a missing key
    reads as the empty string. *)
Definition getConfigMapSuffix (tc : TikvCluster) (component name : string) : string :=
  let sha := default "" (ObjectMeta.Annotations (tc_ObjectMeta tc)
                         !! Sprintf "tikv.org/%s.%s.sha" [a_string component; a_string name]) in
  if (String.length sha =? 0)%nat then "" else "-" +:+ sha.

(** The [%s] verb prints a MemberType through its [String] method. *)
Definition MemberConfigMapName (tc : TikvCluster) (member : string) : string :=
  let nameKey := Sprintf "%s-%s" [a_string (ObjectMeta.Name (tc_ObjectMeta tc));
                                  a_string (MemberType_String member)] in
  nameKey +:+ getConfigMapSuffix tc (MemberType_String member) nameKey.
End ConfigMapNames.

(** [container] is [None] for a nil map, on which an assignment panics. *)
Definition setIfNotEmpty (container : option (gmap string string)) (key value : string)
  : option (gmap string string) * Outcome :=
  if bool_decide (value ≠ "")
  then match container with
       | Some m => (Some (<[key := value]> m), Returned)
       | None => (None, Panicked)
       end
  else (container, Returned).

(** ** Request tracker (util.go, lines 288-329) *)

(** Go's [int] on a 64-bit platform. *)
Definition wrap_int (z : Z) : Z := ((z + 2 ^ 63) mod 2 ^ 64 - 2 ^ 63)%Z.

Record RequestTracker := mkRequestTracker {
  requests : Z;
  rt_err : option error;
  after : Z
}.

Definition ErrorReady (rt : RequestTracker) : bool :=
  negb (is_nil (rt_err rt)) && (after rt <=? requests rt)%Z.

Definition Inc (rt : RequestTracker) : RequestTracker :=
  mkRequestTracker (wrap_int (requests rt + 1)) (rt_err rt) (after rt).

Definition Reset (rt : RequestTracker) : RequestTracker :=
  mkRequestTracker (requests rt) None 0.

Definition SetError (err : option error) (rt : RequestTracker) : RequestTracker :=
  mkRequestTracker (requests rt) err (after rt).

Definition SetAfter (after' : Z) (rt : RequestTracker) : RequestTracker :=
  mkRequestTracker (requests rt) (rt_err rt) after'.

Definition SetRequests (requests' : Z) (rt : RequestTracker) : RequestTracker :=
  mkRequestTracker requests' (rt_err rt) (after rt).

Definition GetRequests (rt : RequestTracker) : Z := requests rt.

Definition GetError (rt : RequestTracker) : option error := rt_err rt.

(** ** Clones (util.go, lines 407-440) *)

(** The part of runtime.Scheme that is used; [scheme.Scheme] is passed in.
    The [unversioned] flag of [ObjectKinds] is dropped by the caller. *)
Record Scheme := mkScheme {
  ObjectKinds : RuntimeObject → result (list GroupVersionKind.t);
  Scheme_New : GroupVersionKind.t → result RuntimeObject
}.

Definition SetName (name : string) (m : ObjectMeta.t) : ObjectMeta.t :=
  ObjectMeta.mk name (ObjectMeta.Namespace m) (ObjectMeta.UID m)
                (ObjectMeta.ResourceVersion m) (ObjectMeta.Generation m)
                (ObjectMeta.Labels m) (ObjectMeta.Annotations m)
                (ObjectMeta.OwnerReferences m).

Definition SetNamespace (ns : string) (m : ObjectMeta.t) : ObjectMeta.t :=
  ObjectMeta.mk (ObjectMeta.Name m) ns (ObjectMeta.UID m)
                (ObjectMeta.ResourceVersion m) (ObjectMeta.Generation m)
                (ObjectMeta.Labels m) (ObjectMeta.Annotations m)
                (ObjectMeta.OwnerReferences m).

Section Clones.
Context `{Printer}.
Variable Scheme_ : Scheme.

Definition InferObjectKind (obj : RuntimeObject) : result GroupVersionKind.t :=
  match ObjectKinds Scheme_ obj with
  | Err err => Err err
  | Ok gvks =>
    match gvks with
    | [gvk] => Ok gvk
    | _ => Err (Errorf "Object %v has ambigious GVK" [a_value (Object obj)])
    end
  end.

Definition EmptyClone (obj : RuntimeObject) : result RuntimeObject :=
  match Meta obj with
  | None =>
    Err (Errorf "Obj %v is not a metav1.Object, cannot call EmptyClone" [a_value (Object obj)])
  | Some meta =>
    match InferObjectKind obj with
    | Err err => Err err
    | Ok gvk =>
      match Scheme_New Scheme_ gvk with
      | Err err => Err err
      | Ok inst =>
        match Meta inst with
        | None =>
          Err (Errorf "New instatnce %v created from scheme is not a metav1.Object, EmptyClone failed"
                      [a_value (Object inst)])
        | Some instMeta =>
          Ok (mkRuntimeObject (ObjectKind inst)
                (Some (SetNamespace (ObjectMeta.Namespace meta)
                         (SetName (ObjectMeta.Name meta) instMeta)))
                (Content inst))
        end
      end
    end
  end.
End Clones.

(** ** Member names (util.go, lines 141-210) *)

Section MemberNames.
Context `{Printer}.

Definition PDMemberName (clusterName : string) : string :=
  Sprintf "%s-pd" [a_string clusterName].

Definition PDPeerMemberName (clusterName : string) : string :=
  Sprintf "%s-pd-peer" [a_string clusterName].

Definition TiKVMemberName (clusterName : string) : string :=
  Sprintf "%s-tikv" [a_string clusterName].

Definition TiKVPeerMemberName (clusterName : string) : string :=
  Sprintf "%s-tikv-peer" [a_string clusterName].

Definition TiFlashMemberName (clusterName : string) : string :=
  Sprintf "%s-tiflash" [a_string clusterName].

Definition TiCDCMemberName (clusterName : string) : string :=
  Sprintf "%s-ticdc" [a_string clusterName].

Definition TiFlashPeerMemberName (clusterName : string) : string :=
  Sprintf "%s-tiflash-peer" [a_string clusterName].

Definition TiCDCPeerMemberName (clusterName : string) : string :=
  Sprintf "%s-ticdc-peer" [a_string clusterName].

Definition TiDBMemberName (clusterName : string) : string :=
  Sprintf "%s-tikv" [a_string clusterName].

Definition TiDBPeerMemberName (clusterName : string) : string :=
  Sprintf "%s-tikv-peer" [a_string clusterName].

Definition PumpMemberName (clusterName : string) : string :=
  Sprintf "%s-pump" [a_string clusterName].

Definition TiDBInitializerMemberName (clusterName : string) : string :=
  Sprintf "%s-tikv-initializer" [a_string clusterName].

Definition PumpPeerMemberName (clusterName : string) : string :=
  Sprintf "%s-pump" [a_string clusterName].

Definition DiscoveryMemberName (clusterName : string) : string :=
  Sprintf "%s-discovery" [a_string clusterName].

(** What fmt does with a format made of one [%s] verb and a text without
    verbs, on a string operand. *)
Definition renders_strings : Prop :=
  ∀ suffix name : string,
    Count suffix "%" = 0 →
    Sprintf ("%s" +:+ suffix) [a_string name] = name +:+ suffix.
End MemberNames.

(** ** Prometheus annotations (util.go, lines 212-228) *)

Section Annotations.
Context `{Printer}.

Definition AnnProm (port : Z) : gmap string string :=
  {[ "prometheus.io/scrape" := "true";
     "prometheus.io/path" := "/metrics";
     "prometheus.io/port" := Sprintf "%d" [a_int port] ]}.

Definition AnnAdditionalProm (name : string) (port : Z) : gmap string string :=
  {[ Sprintf "%s.prometheus.io/port" [a_string name] := Sprintf "%d" [a_int port] ]}.
End Annotations.

(** ** Sample inputs for the other utilities *)

(** The group and version of the TikvCluster resource, as its
    CustomResourceDefinition manifest declares them. *)
Definition tikv_org_v1alpha1 : GroupVersion.t := GroupVersion.mk "tikv.org" "v1alpha1".

(** [basic_cluster] as a TikvCluster. *)
Definition basic_tc : TikvCluster :=
  mkTikvCluster (GroupVersionKind.mk "tikv.org" "v1alpha1" "TikvCluster")
                (ObjectMeta.mk "basic" "default" "c0ffee" "41" 1 ∅ ∅ [])
                "pd.replicas=3".

(** The number of calls of [updateFunc] among the calls made. *)
Definition is_CallUpdateFunc (c : Call) : bool :=
  match c with CallUpdateFunc _ => true | _ => false end.

Definition mutation_calls (calls : list Call) : nat :=
  length (List.filter is_CallUpdateFunc calls).

(** A client whose every write is refused with a conflict. *)
Definition contended_cli : Client Store :=
  {| Get := λ _ _ st, (stored st, st, None);
     Update := λ obj st, (obj, st, Some conflict) |}.

(** A child of the cluster by a plain owner reference: the controller
    flag is not set. *)
Definition plain_owner_ref : OwnerReference.t :=
  OwnerReference.mk "tikv.org/v1alpha1" "TikvCluster" "basic" "c0ffee" None (Some true).

Definition owned_secret_meta : ObjectMeta.t :=
  ObjectMeta.mk "basic-tls" "default" "5ec" "2" 1 tikv_labels ∅ [plain_owner_ref].

(** A controller reference whose APIVersion does not parse. *)
Definition garbled_ref : OwnerReference.t :=
  OwnerReference.mk "tikv.org/v1alpha1/extra" "TikvCluster" "basic" "c0ffee"
                    (Some true) (Some true).

Definition garbled_meta : ObjectMeta.t :=
  ObjectMeta.mk "basic-pd" "default" "9d" "4" 1 tikv_labels ∅ [garbled_ref].

(** A lister that holds nothing. *)
Definition empty_lister : GetControllerFn := λ _ _,
  (None, Some (StatusError StatusReasonNotFound "tikvcluster not found")).

(** Marks the content, so that the object is never left as it was. *)
Definition mark_content : Mutation Store := λ obj st,
  (with_content (String "!" (Content obj)) obj, counted st, None).

(** 5 GiB, 1.5 GiB and half a MiB of storage. *)
Definition five_GiB : Quantity := mkQuantity (Some 5368709120%Z) "5Gi".
Definition GiB_and_a_half : Quantity := mkQuantity (Some 1610612736%Z) "1536Mi".
Definition half_MiB : Quantity := mkQuantity (Some 524288%Z) "512Ki".

(** A scheme that knows the TikvCluster kind only and builds an empty
    cluster for it. *)
Definition tikv_scheme : Scheme :=
  {| ObjectKinds := λ obj,
       if bool_decide (GroupVersionKind.Kind (ObjectKind obj) = "TikvCluster")
       then Ok [GroupVersionKind.mk "tikv.org" "v1alpha1" "TikvCluster"]
       else Err (errorString "no kind is registered for the type");
     Scheme_New := λ gvk,
       if bool_decide (gvk = GroupVersionKind.mk "tikv.org" "v1alpha1" "TikvCluster")
       then Ok (mkRuntimeObject gvk (Some (ObjectMeta.mk "" "" "" "" 0 ∅ ∅ [])) "")
       else Err (errorString "no kind is registered") |}.

(** What [tikv_scheme] builds for [basic_cluster]. *)
Definition basic_clone : RuntimeObject :=
  mkRuntimeObject (GroupVersionKind.mk "tikv.org" "v1alpha1" "TikvCluster")
                  (Some (ObjectMeta.mk "basic" "default" "" "" 0 ∅ ∅ [])) "".

(** A Secret and a PD set of the cluster, for [owned_secret_meta] and
    [garbled_meta]. *)
Definition tls_secret : RuntimeObject :=
  mkRuntimeObject (GroupVersionKind.mk "" "v1" "Secret") (Some owned_secret_meta) "tls".

Definition pd_set : RuntimeObject :=
  mkRuntimeObject (GroupVersionKind.mk "apps" "v1" "StatefulSet") (Some garbled_meta) "".

(** A printer for formats made of text and [%s] verbs on string
    operands. *)
Fixpoint render (format : string) (a : list any) : string :=
  match format with
  | EmptyString => ""
  | String "%" (String "s" rest) =>
    match a with
    | a_string s :: a' => s +:+ render rest a'
    | _ => "%!s(MISSING)" +:+ render rest []
    end
  | String c rest => String c (render rest a)
  end.

Definition text_printer : Printer := λ _ format a, (render format a, None).

(** * Properties *)

Arguments DeletionHandlingMetaNamespaceKeyFunc : simpl never.
Arguments ParseGroupVersion : simpl never.
Arguments GetControllerOf : simpl never.
Arguments IsSubMapOf : simpl never.

(** ** Error classifier *)

Section ErrorClassifier_properties.
Context `{Printer}.

(** C7: an error built by [RequeueErrorf] satisfies [IsRequeueError] and
    not [IsIgnoreError], one built by [IgnoreErrorf] satisfies
    [IsIgnoreError] and not [IsRequeueError], and one built by
    [fmt.Errorf] satisfies neither; the message of each is the formatted
    string. *)
Theorem classifier_predicates (format : string) (a : list any) :
  (IsRequeueError (Some (RequeueErrorf format a)) = true
   ∧ IsIgnoreError (Some (RequeueErrorf format a)) = false
   ∧ Error (RequeueErrorf format a) = Sprintf format a)
  ∧ (IsIgnoreError (Some (IgnoreErrorf format a)) = true
     ∧ IsRequeueError (Some (IgnoreErrorf format a)) = false
     ∧ Error (IgnoreErrorf format a) = Sprintf format a)
  ∧ (IsRequeueError (Some (Errorf format a)) = false
     ∧ IsIgnoreError (Some (Errorf format a)) = false
     ∧ Error (Errorf format a) = (doPrintf true format a).1).
Proof.
  repeat split; try reflexivity;
    unfold Errorf; destruct (doPrintf true format a) as [s [err|]]; reflexivity.
Qed.
End ErrorClassifier_properties.

(** ** Key codec *)

Section KeyCodec_properties.
Context `{Printer}.

Lemma key_of_live_object (ns name : string) (obj : payload) :
  identifies ns name obj →
  DeletionHandlingMetaNamespaceKeyFunc obj = Ok (KeyOf ns name).
Proof.
  intros (o & meta & -> & Hmeta & <- & <-).
  unfold DeletionHandlingMetaNamespaceKeyFunc, MetaNamespaceKeyFunc, Accessor, KeyOf.
  simpl. rewrite Hmeta.
  destruct (0 <? String.length (ObjectMeta.Namespace meta))%nat; reflexivity.
Qed.

Lemma enqueue_live_object (ns name : string) (obj : payload) (w : Env) :
  identifies ns name obj →
  WatchForObject_enqueueFn obj w = (q_Add (KeyOf ns name) w, Returned).
Proof.
  intros Hid. unfold WatchForObject_enqueueFn.
  rewrite (key_of_live_object ns name obj Hid). reflexivity.
Qed.

(** C9: two objects with metadata that agree on namespace and name get
    the same key from [DeletionHandlingMetaNamespaceKeyFunc], whatever
    their other fields are, and so an add, an update and a delete of such
    objects all enqueue that one key. *)
Theorem key_depends_on_namespace_and_name
    (o1 o2 : RuntimeObject) (m1 m2 : ObjectMeta.t) :
  Meta o1 = Some m1 → Meta o2 = Some m2 →
  ObjectMeta.Namespace m1 = ObjectMeta.Namespace m2 →
  ObjectMeta.Name m1 = ObjectMeta.Name m2 →
  ∃ key,
    DeletionHandlingMetaNamespaceKeyFunc (Object o1) = Ok key
    ∧ DeletionHandlingMetaNamespaceKeyFunc (Object o2) = Ok key
    ∧ key = KeyOf (ObjectMeta.Namespace m1) (ObjectMeta.Name m1)
    ∧ ∀ (old : payload) (w : Env),
        deliver WatchForObject_handler (OnAdd (Object o1)) w = (q_Add key w, Returned)
        ∧ deliver WatchForObject_handler (OnUpdate old (Object o2)) w
          = (q_Add key w, Returned)
        ∧ deliver WatchForObject_handler (OnDelete (Object o2)) w
          = (q_Add key w, Returned).
Proof.
  intros H1 H2 Hns Hname.
  assert (Hid1 : identifies (ObjectMeta.Namespace m1) (ObjectMeta.Name m1) (Object o1))
    by (exists o1, m1; auto).
  assert (Hid2 : identifies (ObjectMeta.Namespace m1) (ObjectMeta.Name m1) (Object o2))
    by (exists o2, m2; auto).
  exists (KeyOf (ObjectMeta.Namespace m1) (ObjectMeta.Name m1)).
  split; [ by apply key_of_live_object | ].
  split; [ by apply key_of_live_object | ].
  split; [ reflexivity | ].
  intros old w. simpl.
  split; [ by apply enqueue_live_object | ].
  split; by apply enqueue_live_object.
Qed.
End KeyCodec_properties.

(** ** Event router: registration *)

Lemma notify_single (h : ResourceEventHandlerFuncs) (e : Event) (w : Env) :
  notify [h] e w = deliver h e w.
Proof. simpl. by destruct (deliver h e w) as [w' []]. Qed.

(** On an informer without other handlers, an event does what the handler
    registered by [WatchForObject], or by [WatchForController], does. *)
Lemma notify_WatchForObject `{Printer} (e : Event) (w : Env) :
  notify (WatchForObject []) e w = deliver WatchForObject_handler e w.
Proof. apply notify_single. Qed.

Lemma notify_WatchForController `{Printer} (fn : GetControllerFn)
    (m : option (gmap string string)) (e : Event) (w : Env) :
  notify (WatchForController [] fn m) e w = deliver (WatchForController_handler fn m) e w.
Proof. apply notify_single. Qed.

(** ** Event router, direct mode *)

Section DirectMode_properties.
Context `{Printer}.

Lemma direct_deliver (e : Event) (w : Env) :
  deliver WatchForObject_handler e w = WatchForObject_enqueueFn (current e) w.
Proof. destruct e; reflexivity. Qed.

Lemma direct_deliver_about (ns name : string) (e : Event) (w : Env) :
  about ns name e →
  deliver WatchForObject_handler e w = (q_Add (KeyOf ns name) w, Returned).
Proof.
  intros [Hlive | [Obj ->]].
  - rewrite direct_deliver. by apply enqueue_live_object.
  - reflexivity.
Qed.

Lemma direct_deliver_all_about (ns name : string) (es : list Event) :
  Forall (about ns name) es →
  ∀ w, deliver_all WatchForObject_handler es w
       = (mkEnv (q w ++ repeat (KeyOf ns name) (length es)) (handled w) (klogV4 w),
          Returned).
Proof.
  induction 1 as [| e es He _ IH]; intros w.
  - simpl. rewrite app_nil_r. by destruct w.
  - cbn [deliver_all]. rewrite (direct_deliver_about ns name e w He).
    rewrite IH. simpl. by rewrite <- app_assoc.
Qed.

(** C6: in direct mode every event of a sequence of adds, updates and
    deletes on one object makes exactly one [q.Add] of that object's key;
    a delete that carries a tombstone adds the tombstone's key, whatever
    is left of the object; and when the key cannot be derived the error
    goes to [HandleError], nothing is added, and the handler returns. *)
Theorem direct_mode_enqueues (ns name : string) (es : list Event) (w : Env) :
  Forall (about ns name) es →
  deliver_all WatchForObject_handler es w
  = (mkEnv (q w ++ repeat (KeyOf ns name) (length es)) (handled w) (klogV4 w),
     Returned)
  ∧ (∀ (Key : string) (Obj : payload) (w' : Env),
       deliver WatchForObject_handler (OnDelete (DeletedFinalStateUnknown Key Obj)) w'
       = (q_Add Key w', Returned))
  ∧ (∀ (e : Event) (err : error) (w' : Env),
       DeletionHandlingMetaNamespaceKeyFunc (current e) = Err err →
       deliver WatchForObject_handler e w'
       = (mkEnv (q w')
                (handled w' ++ [Errorf "Cound't get key for object %+v: %v"
                                       [a_value (current e); a_error (Some err)]])
                (klogV4 w'),
          Returned)).
Proof.
  intros Hes. split; [ by apply direct_deliver_all_about | ].
  split; [ reflexivity | ].
  intros e err w' Herr. rewrite direct_deliver.
  unfold WatchForObject_enqueueFn. rewrite Herr. reflexivity.
Qed.
End DirectMode_properties.

(** ** Event router, indirect mode *)

Section IndirectMode_properties.
Context `{Printer}.
Variable fn : GetControllerFn.
Variable m : option (gmap string string).

Lemma indirect_deliver (e : Event) (w : Env) :
  deliver (WatchForController_handler fn m) e w
  = WatchForController_enqueueFn fn m (current e) w.
Proof. destruct e; reflexivity. Qed.

(** One call of the closure adds at most one key, and reports at most one
    error. *)
Lemma indirect_enqueue_at_most_one (obj : payload) (w : Env) :
  let w' := (WatchForController_enqueueFn fn m obj w).1 in
  (q w' = q w ∨ ∃ key, q w' = q w ++ [key]).
Proof.
  unfold WatchForController_enqueueFn.
  repeat (match goal with
          | |- context [match ?x with _ => _ end] => destruct x
          end; simpl; eauto).
Qed.

(** C10: when the payload of an event does not implement metav1.Object,
    the handler of [WatchForController] hands one error to [HandleError]
    and returns: no key is added, nothing panics, and neither the lookup
    function nor the filter is consulted. *)
Theorem indirect_rejects_payload_without_metadata (e : Event) (w : Env) :
  as_metav1_Object (current e) = None →
  deliver (WatchForController_handler fn m) e w
  = (mkEnv (q w)
           (handled w ++ [Errorf "%+v is not a runtime.Object, cannot get controller from it"
                                 [a_value (current e)]])
           (klogV4 w),
     Returned).
Proof.
  intros Hno. rewrite indirect_deliver.
  unfold WatchForController_enqueueFn. rewrite Hno. reflexivity.
Qed.

(** C5: when the controller reference of the event's object parses and
    the lookup returns a candidate, but the candidate's kind or group is
    not the reference's, the handler returns with nothing added to the
    queue and nothing handed to [HandleError], whatever the names are. *)
Theorem indirect_kind_or_group_mismatch
    (e : Event) (meta : ObjectMeta.t) (ref : OwnerReference.t)
    (refGV : GroupVersion.t) (controllerObj : RuntimeObject) (w : Env) :
  as_metav1_Object (current e) = Some meta →
  GetControllerOf meta = Some ref →
  ParseGroupVersion (OwnerReference.APIVersion ref) = Ok refGV →
  fn (ObjectMeta.Namespace meta) (OwnerReference.Name ref) = (Some controllerObj, None) →
  OwnerReference.Kind ref ≠ GroupVersionKind.Kind (ObjectKind controllerObj)
  ∨ GroupVersion.Group refGV ≠ GroupVersionKind.Group (ObjectKind controllerObj) →
  deliver (WatchForController_handler fn m) e w = (w, Returned).
Proof.
  intros Hmeta Href Hgv Hfn Hdiff. rewrite indirect_deliver.
  unfold WatchForController_enqueueFn. rewrite Hmeta.
  destruct (match m with
            | Some m0 => negb (IsSubMapOf m0 (ObjectMeta.Labels meta))
            | None => false
            end); [ reflexivity | ].
  rewrite Href, Hgv, Hfn.
  destruct Hdiff as [Hk | Hg].
  - rewrite (bool_decide_eq_false_2 _ Hk). reflexivity.
  - rewrite (bool_decide_eq_false_2 _ Hg), andb_false_r. reflexivity.
Qed.
End IndirectMode_properties.

Section FilteredIndirectMode_properties.
Context `{Printer}.
Variable fn : GetControllerFn.

Lemma queue_not_grown (l : list string) (key : string) : l ≠ l ++ [key].
Proof.
  intros Heq. apply (f_equal length) in Heq.
  rewrite length_app in Heq. simpl in Heq. lia.
Qed.

(** Whatever the closure adds to the queue is the key of the object that
    the lookup function returned for the controller reference. *)
Lemma indirect_enqueues_controller_key
    (m : option (gmap string string)) (obj : payload) (w : Env) (key : string) :
  q (WatchForController_enqueueFn fn m obj w).1 = q w ++ [key] →
  ∃ meta ref controllerObj,
    as_metav1_Object obj = Some meta
    ∧ GetControllerOf meta = Some ref
    ∧ fn (ObjectMeta.Namespace meta) (OwnerReference.Name ref) = (Some controllerObj, None)
    ∧ DeletionHandlingMetaNamespaceKeyFunc (Object controllerObj) = Ok key.
Proof.
  unfold WatchForController_enqueueFn.
  destruct (as_metav1_Object obj) as [meta|] eqn:Hmeta; simpl;
    [ | intros Hq; by apply queue_not_grown in Hq ].
  destruct (match m with
            | Some m0 => negb (IsSubMapOf m0 (ObjectMeta.Labels meta))
            | None => false
            end); simpl; [ intros Hq; by apply queue_not_grown in Hq | ].
  destruct (GetControllerOf meta) as [ref|] eqn:Href; simpl;
    [ | intros Hq; by apply queue_not_grown in Hq ].
  destruct (ParseGroupVersion (OwnerReference.APIVersion ref)) as [refGV|]; simpl;
    [ | intros Hq; by apply queue_not_grown in Hq ].
  destruct (fn (ObjectMeta.Namespace meta) (OwnerReference.Name ref))
    as [[controllerObj|] [err|]] eqn:Hfn; simpl;
    try (destruct (IsNotFound err); simpl);
    try (intros Hq; by apply queue_not_grown in Hq).
  destruct (bool_decide _ && bool_decide _); simpl;
    [ | intros Hq; by apply queue_not_grown in Hq ].
  destruct (DeletionHandlingMetaNamespaceKeyFunc (Object controllerObj))
    as [key'|] eqn:Hkey; simpl;
    [ | intros Hq; by apply queue_not_grown in Hq ].
  intros Hq. apply app_inv_head in Hq. injection Hq as ->.
  exists meta, ref, controllerObj. auto.
Qed.

End FilteredIndirectMode_properties.

Section UpdateEvents_properties.
Context `{Printer}.

Lemma direct_enqueue_at_most_one (obj : payload) (w : Env) :
  let w' := (WatchForObject_enqueueFn obj w).1 in
  q w' = q w ∨ ∃ key, q w' = q w ++ [key].
Proof.
  unfold WatchForObject_enqueueFn.
  destruct (DeletionHandlingMetaNamespaceKeyFunc obj); simpl; eauto.
Qed.

(** C8: in both modes an update event does what the closure does on the
    new object: the old object has no part in it (the outcome is that of
    an add of the new object, for any old object), and at most one key
    is added. *)
Theorem update_keys_off_current_object
    (fn : GetControllerFn) (m : option (gmap string string))
    (oldObj cur : payload) (w : Env) :
  (deliver WatchForObject_handler (OnUpdate oldObj cur) w
   = WatchForObject_enqueueFn cur w
   ∧ deliver WatchForObject_handler (OnUpdate oldObj cur) w
     = deliver WatchForObject_handler (OnAdd cur) w
   ∧ (q (deliver WatchForObject_handler (OnUpdate oldObj cur) w).1 = q w
      ∨ ∃ key, q (deliver WatchForObject_handler (OnUpdate oldObj cur) w).1
               = q w ++ [key]))
  ∧ (deliver (WatchForController_handler fn m) (OnUpdate oldObj cur) w
     = WatchForController_enqueueFn fn m cur w
     ∧ deliver (WatchForController_handler fn m) (OnUpdate oldObj cur) w
       = deliver (WatchForController_handler fn m) (OnAdd cur) w
     ∧ (q (deliver (WatchForController_handler fn m) (OnUpdate oldObj cur) w).1 = q w
        ∨ ∃ key, q (deliver (WatchForController_handler fn m) (OnUpdate oldObj cur) w).1
                 = q w ++ [key])).
Proof.
  repeat split; try reflexivity.
  - apply direct_enqueue_at_most_one.
  - apply indirect_enqueue_at_most_one.
Qed.
End UpdateEvents_properties.

(** ** Retry on conflict *)

Section Retry_properties.
Context {S : Type}.
Variable retriable : error → bool.
Variable fn : S → S * option error.

Lemma ExponentialBackoff_step (k : nat) (s : S) (lastErr : option error) :
  ExponentialBackoff (Datatypes.S k) (OnError_condition retriable fn) (s, lastErr)
  = match fn s with
    | (s1, None) => ((s1, lastErr), None)
    | (s1, Some c) =>
      if retriable c
      then if (k =? 0)%nat then ((s1, Some c), Some ErrWaitTimeout)
           else ExponentialBackoff k (OnError_condition retriable fn) (s1, Some c)
      else ((s1, lastErr), Some c)
    end.
Proof.
  cbn [ExponentialBackoff]. unfold OnError_condition at 1.
  destruct (fn s) as [s1 [c|]]; [ destruct (retriable c) | ]; reflexivity.
Qed.

(** The loop of [wait.ExponentialBackoff] under the condition of
    [retry.OnError]: the calls of [fn] form a chain in which every call
    but the last ended in a retriable error, and the loop ends as the
    last call tells. *)
Lemma ExponentialBackoff_cycles (n : nat) :
  ∀ (s : S) (lastErr : option error),
    0 < n →
    ∃ (retried : list (S * option error)) (s' : S) (e : option error),
      chain fn s (retried ++ [(s', e)])
      ∧ Forall (ended_retriable retriable) retried
      ∧ length retried < n
      ∧ ∃ lastErr',
          match e with
          | None =>
            ExponentialBackoff n (OnError_condition retriable fn) (s, lastErr)
            = ((s', lastErr'), None)
          | Some c =>
            if retriable c
            then Datatypes.S (length retried) = n
                 ∧ ExponentialBackoff n (OnError_condition retriable fn) (s, lastErr)
                   = ((s', Some c), Some ErrWaitTimeout)
            else ExponentialBackoff n (OnError_condition retriable fn) (s, lastErr)
                 = ((s', lastErr'), Some c)
          end.
Proof.
  induction n as [| k IH]; intros s lastErr Hn; [ lia | ].
  rewrite ExponentialBackoff_step.
  destruct (fn s) as [s1 [c|]] eqn:Hfn.
  - destruct (retriable c) eqn:Hc.
    + destruct (k =? 0)%nat eqn:Hk.
      * apply Nat.eqb_eq in Hk. subst k.
        exists [], s1, (Some c). simpl. rewrite Hc.
        split; [ done | ]. split; [ done | ]. split; [ lia | ].
        exists None. done.
      * apply Nat.eqb_neq in Hk.
        destruct (IH s1 (Some c)) as (retried & s' & e & Hch & Hall & Hlen & last' & Hres);
          [ lia | ].
        exists ((s1, Some c) :: retried), s', e.
        split; [ simpl; auto | ].
        split; [ constructor; [ by exists c | done ] | ].
        split; [ simpl; lia | ].
        exists last'. destruct e as [c'|]; [ | done ].
        destruct (retriable c'); [ | done ].
        destruct Hres as [Hlen' Hres]. split; [ simpl; lia | done ].
    + exists [], s1, (Some c). simpl. rewrite Hc.
      split; [ done | ]. split; [ done | ]. split; [ lia | ].
      exists lastErr. done.
  - exists [], s1, None. simpl.
    split; [ done | ]. split; [ done | ]. split; [ lia | ].
    exists lastErr. done.
Qed.

(** [retry.OnError]: what the chain of calls of [fn] looks like and what
    is returned at its end. *)
Lemma OnError_cycles (backoff : Backoff) (s : S) :
  0 < Steps backoff →
  ∃ (retried : list (S * option error)) (s' : S) (e : option error),
    chain fn s (retried ++ [(s', e)])
    ∧ Forall (ended_retriable retriable) retried
    ∧ length retried < Steps backoff
    ∧ (OnError backoff retriable fn s).1 = s'
    ∧ match e with
      | None => (OnError backoff retriable fn s).2 = None
      | Some c =>
        if retriable c
        then Datatypes.S (length retried) = Steps backoff
             ∧ (OnError backoff retriable fn s).2 = Some c
        else c ≠ ErrWaitTimeout → (OnError backoff retriable fn s).2 = Some c
      end.
Proof.
  intros Hsteps.
  destruct (ExponentialBackoff_cycles (Steps backoff) s None Hsteps)
    as (retried & s' & e & Hch & Hall & Hlen & last' & Hres).
  exists retried, s', e. repeat (split; [ done | ]).
  unfold OnError. destruct e as [c|].
  - destruct (retriable c).
    + destruct Hres as [Hlen' ->]. rewrite bool_decide_eq_true_2 by done. auto.
    + rewrite Hres. split; [ by case_bool_decide | ].
      intros Hc. rewrite bool_decide_eq_false_2; [ done | congruence ].
  - rewrite Hres. rewrite bool_decide_eq_false_2 by done. auto.
Qed.
End Retry_properties.

(** ** Guaranteed updater *)

Section GuaranteedUpdate_properties.
Context {World : Type}.
Variable DeepEqual : RuntimeObject → RuntimeObject → bool.
Variable cli : Client World.
Variable updateFunc : Mutation World.


(** The four ways through one cycle. *)
Lemma attempt_fetch_error key s obj1 w1 err :
  Get cli key (st_obj s) (st_world s) = (obj1, w1, Some err) →
  GuaranteedUpdate_attempt DeepEqual cli updateFunc key s = (mkState obj1 w1 (st_calls s ++ [CallGet key (Some err)]), Some err).
Proof. intros Hget. unfold GuaranteedUpdate_attempt. by rewrite Hget. Qed.

Lemma attempt_mutate_error key s obj1 w1 obj2 w2 err :
  Get cli key (st_obj s) (st_world s) = (obj1, w1, None) →
  updateFunc obj1 w1 = (obj2, w2, Some err) →
  GuaranteedUpdate_attempt DeepEqual cli updateFunc key s
  = (mkState obj2 w2 ((st_calls s ++ [CallGet key None]) ++ [CallUpdateFunc (Some err)]),
     Some err).
Proof. intros Hget Hmut. unfold GuaranteedUpdate_attempt. by rewrite Hget, Hmut. Qed.

Lemma attempt_unchanged key s obj1 w1 obj2 w2 :
  Get cli key (st_obj s) (st_world s) = (obj1, w1, None) →
  updateFunc obj1 w1 = (obj2, w2, None) →
  DeepEqual obj2 obj1 = true →
  GuaranteedUpdate_attempt DeepEqual cli updateFunc key s
  = (mkState obj2 w2 ((st_calls s ++ [CallGet key None]) ++ [CallUpdateFunc None]), None).
Proof.
  intros Hget Hmut Heq. unfold GuaranteedUpdate_attempt. by rewrite Hget, Hmut, Heq.
Qed.

Lemma attempt_written key s obj1 w1 obj2 w2 obj3 w3 err :
  Get cli key (st_obj s) (st_world s) = (obj1, w1, None) →
  updateFunc obj1 w1 = (obj2, w2, None) →
  DeepEqual obj2 obj1 = false →
  Update cli obj2 w2 = (obj3, w3, err) →
  GuaranteedUpdate_attempt DeepEqual cli updateFunc key s
  = (mkState obj3 w3 (((st_calls s ++ [CallGet key None]) ++ [CallUpdateFunc None])
                      ++ [CallUpdate obj2 err]), err).
Proof.
  intros Hget Hmut Hne Hupd. unfold GuaranteedUpdate_attempt.
  by rewrite Hget, Hmut, Hne, Hupd.
Qed.

(** Every cycle begins with a fetch, and fetches once. *)
Lemma attempt_begins_with_fetch key s :
  ∃ err rest,
    st_calls (GuaranteedUpdate_attempt DeepEqual cli updateFunc key s).1 = st_calls s ++ CallGet key err :: rest
    ∧ Forall (λ c, is_CallGet c = false) rest.
Proof.
  unfold GuaranteedUpdate_attempt.
  destruct (Get cli key (st_obj s) (st_world s)) as [[obj1 w1] [err|]].
  { exists (Some err), []. by split. }
  destruct (updateFunc obj1 w1) as [[obj2 w2] [err|]].
  { exists None, [CallUpdateFunc (Some err)]. simpl. rewrite <- app_assoc.
    split; [ done | by repeat constructor ]. }
  destruct (DeepEqual obj2 obj1).
  { exists None, [CallUpdateFunc None]. simpl. rewrite <- app_assoc.
    split; [ done | by repeat constructor ]. }
  destruct (Update cli obj2 w2) as [[obj3 w3] err].
  exists None, [CallUpdateFunc None; CallUpdate obj2 err]. simpl.
  rewrite <- !app_assoc. split; [ done | by repeat constructor ].
Qed.

Lemma attempt_fetches key s :
  fetches (st_calls (GuaranteedUpdate_attempt DeepEqual cli updateFunc key s).1) = Datatypes.S (fetches (st_calls s)).
Proof.
  destruct (attempt_begins_with_fetch key s) as (err & rest & -> & Hrest).
  unfold fetches. rewrite List.filter_app, length_app. simpl.
  replace (List.filter is_CallGet rest) with (@nil Call); [ simpl; lia | ].
  induction Hrest as [| c rest Hc _ IH]; [ done | ]. simpl. by rewrite Hc.
Qed.

Lemma chain_fetches key (rs : list (State World * option error)) :
  ∀ s s' e,
    chain (GuaranteedUpdate_attempt DeepEqual cli updateFunc key) s (rs ++ [(s', e)]) →
    fetches (st_calls s') = fetches (st_calls s) + Datatypes.S (length rs).
Proof.
  induction rs as [| r rs IH]; intros s s' e; simpl.
  - intros [Hfn _]. pose proof (attempt_fetches key s) as Hf.
    rewrite Hfn in Hf. simpl in Hf. lia.
  - intros [Hfn Hch]. apply IH in Hch. rewrite Hch.
    pose proof (attempt_fetches key s) as Hf. rewrite Hfn in Hf. lia.
Qed.

(** The cycles of one [GuaranteedUpdate]. *)
Lemma GuaranteedUpdate_cycles obj w key :
  ObjectKeyFromObject obj = Ok key →
  ∃ (retried : list (State World * option error)) (s' : State World) (e : option error),
    chain (GuaranteedUpdate_attempt DeepEqual cli updateFunc key) (mkState obj w []) (retried ++ [(s', e)])
    ∧ Forall (ended_retriable IsConflict) retried
    ∧ length retried < Steps DefaultRetry
    ∧ (GuaranteedUpdate DeepEqual cli updateFunc obj w).1 = s'
    ∧ match e with
      | None => (GuaranteedUpdate DeepEqual cli updateFunc obj w).2 = None
      | Some c =>
        if IsConflict c
        then Datatypes.S (length retried) = Steps DefaultRetry
             ∧ (GuaranteedUpdate DeepEqual cli updateFunc obj w).2 = Some c
        else c ≠ ErrWaitTimeout → (GuaranteedUpdate DeepEqual cli updateFunc obj w).2 = Some c
      end.
Proof.
  intros Hkey. unfold GuaranteedUpdate, RetryOnConflict. rewrite Hkey.
  apply OnError_cycles. simpl. lia.
Qed.

(** C1: when the fetch succeeds and [updateFunc] succeeds and leaves the
    object [DeepEqual] to the copy taken after the fetch,
    [GuaranteedUpdate] returns nil after that one fetch and that one call
    of [updateFunc], and [Update] is not called. *)
Theorem unchanged_object_is_not_written obj w key obj1 w1 obj2 w2 :
  ObjectKeyFromObject obj = Ok key →
  Get cli key obj w = (obj1, w1, None) →
  updateFunc obj1 w1 = (obj2, w2, None) →
  DeepEqual obj2 obj1 = true →
  GuaranteedUpdate DeepEqual cli updateFunc obj w
  = (mkState obj2 w2 [CallGet key None; CallUpdateFunc None], None)
  ∧ writes (st_calls (GuaranteedUpdate DeepEqual cli updateFunc obj w).1) = 0.
Proof.
  intros Hkey Hget Hmut Heq.
  assert (Hrun : GuaranteedUpdate DeepEqual cli updateFunc obj w
                 = (mkState obj2 w2 [CallGet key None; CallUpdateFunc None], None)).
  { unfold GuaranteedUpdate, RetryOnConflict, OnError. rewrite Hkey.
    change (Steps DefaultRetry) with 5. rewrite ExponentialBackoff_step.
    rewrite (attempt_unchanged key (mkState obj w []) obj1 w1 obj2 w2) by done.
    reflexivity. }
  rewrite Hrun. by split.
Qed.
(** C2, as the code has it: a cycle is run again only when the cycle
    before it ended in a conflict error, whichever of its calls returned
    it; every cycle begins with a fetch; there are at most 5 cycles
    ([retry.DefaultRetry]); when the last cycle ends without error the
    result is nil, and when it ends in a conflict all 5 cycles have been
    used and that conflict is returned; and when the first write
    conflicts and the second cycle goes through, the result is nil after
    exactly two fetches and two writes. *)
Theorem conflicts_are_retried_within_bound obj w key :
  ObjectKeyFromObject obj = Ok key →
  (∃ (retried : list (State World * option error)) (s' : State World) (e : option error),
      chain (GuaranteedUpdate_attempt DeepEqual cli updateFunc key) (mkState obj w []) (retried ++ [(s', e)])
      ∧ Forall (ended_retriable IsConflict) retried
      ∧ (Datatypes.S (length retried) ≤ Steps DefaultRetry)%nat
      ∧ (GuaranteedUpdate DeepEqual cli updateFunc obj w).1 = s'
      ∧ fetches (st_calls s') = Datatypes.S (length retried)
      ∧ (e = None → (GuaranteedUpdate DeepEqual cli updateFunc obj w).2 = None)
      ∧ (∀ c, e = Some c → IsConflict c = true →
              Datatypes.S (length retried) = Steps DefaultRetry
              ∧ (GuaranteedUpdate DeepEqual cli updateFunc obj w).2 = Some c))
  ∧ Steps DefaultRetry = 5
  ∧ (∀ s, ∃ err rest, st_calls (GuaranteedUpdate_attempt DeepEqual cli updateFunc key s).1 = st_calls s ++ CallGet key err :: rest)
  ∧ (∀ obj1 w1 obj2 w2 obj3 w3 c obj4 w4 obj5 w5 obj6 w6,
       Get cli key obj w = (obj1, w1, None) →
       updateFunc obj1 w1 = (obj2, w2, None) →
       DeepEqual obj2 obj1 = false →
       Update cli obj2 w2 = (obj3, w3, Some c) →
       IsConflict c = true →
       Get cli key obj3 w3 = (obj4, w4, None) →
       updateFunc obj4 w4 = (obj5, w5, None) →
       DeepEqual obj5 obj4 = false →
       Update cli obj5 w5 = (obj6, w6, None) →
       GuaranteedUpdate DeepEqual cli updateFunc obj w
       = (mkState obj6 w6 [CallGet key None; CallUpdateFunc None; CallUpdate obj2 (Some c);
                           CallGet key None; CallUpdateFunc None; CallUpdate obj5 None],
          None)).
Proof.
  intros Hkey. split; [ | split; [ reflexivity | split ] ].
  - destruct (GuaranteedUpdate_cycles obj w key Hkey)
      as (retried & s' & e & Hch & Hall & Hlen & Hst & Hres).
    exists retried, s', e.
    split; [ done | ]. split; [ done | ]. split; [ lia | ]. split; [ done | ].
    split; [ by rewrite (chain_fetches key retried _ _ _ Hch) | ].
    split.
    + intros ->. done.
    + intros c -> Hc. by rewrite Hc in Hres.
  - intros s. destruct (attempt_begins_with_fetch key s) as (err & rest & Hcalls & _).
    by exists err, rest.
  - intros obj1 w1 obj2 w2 obj3 w3 c obj4 w4 obj5 w5 obj6 w6
           Hget1 Hmut1 Hne1 Hupd1 Hc Hget2 Hmut2 Hne2 Hupd2.
    unfold GuaranteedUpdate, RetryOnConflict, OnError. rewrite Hkey.
    change (Steps DefaultRetry) with 5. rewrite ExponentialBackoff_step.
    rewrite (attempt_written key (mkState obj w []) obj1 w1 obj2 w2 obj3 w3 (Some c))
      by done.
    rewrite Hc. cbn [Nat.eqb]. rewrite ExponentialBackoff_step.
    rewrite (attempt_written key _ obj4 w4 obj5 w5 obj6 w6 None) by done.
    reflexivity.
Qed.

(** C3, as the code has it: an error from the key derivation is returned
    before any fetch; otherwise the run is a chain of cycles in which
    only cycles that ended in a conflict error are followed by another
    one, and when the last cycle ended in an error that is neither a
    conflict nor [wait.ErrWaitTimeout], that error is returned; a cycle
    whose fetch fails makes no further call, and a cycle whose
    [updateFunc] fails makes no write; in particular, when the first
    fetch, or the first call of [updateFunc], fails with an error that is
    neither a conflict nor [wait.ErrWaitTimeout], that error is returned
    after that call and nothing else is called. *)
Theorem other_failures_abort obj w :
  match ObjectKeyFromObject obj with
  | Err err => GuaranteedUpdate DeepEqual cli updateFunc obj w = (mkState obj w [], Some err)
  | Ok key =>
    (∃ (retried : list (State World * option error)) (s' : State World)
       (e : option error),
        chain (GuaranteedUpdate_attempt DeepEqual cli updateFunc key) (mkState obj w []) (retried ++ [(s', e)])
        ∧ Forall (ended_retriable IsConflict) retried
        ∧ (GuaranteedUpdate DeepEqual cli updateFunc obj w).1 = s'
        ∧ (∀ c, e = Some c → IsConflict c = false → c ≠ ErrWaitTimeout →
                (GuaranteedUpdate DeepEqual cli updateFunc obj w).2 = Some c))
    ∧ (∀ s obj1 w1 err,
         Get cli key (st_obj s) (st_world s) = (obj1, w1, Some err) →
         GuaranteedUpdate_attempt DeepEqual cli updateFunc key s
         = (mkState obj1 w1 (st_calls s ++ [CallGet key (Some err)]), Some err))
    ∧ (∀ s obj1 w1 obj2 w2 err,
         Get cli key (st_obj s) (st_world s) = (obj1, w1, None) →
         updateFunc obj1 w1 = (obj2, w2, Some err) →
         GuaranteedUpdate_attempt DeepEqual cli updateFunc key s
         = (mkState obj2 w2 (st_calls s ++ [CallGet key None; CallUpdateFunc (Some err)]),
            Some err))
    ∧ (∀ obj1 w1 err,
         Get cli key obj w = (obj1, w1, Some err) →
         IsConflict err = false → err ≠ ErrWaitTimeout →
         GuaranteedUpdate DeepEqual cli updateFunc obj w
         = (mkState obj1 w1 [CallGet key (Some err)], Some err))
    ∧ (∀ obj1 w1 obj2 w2 err,
         Get cli key obj w = (obj1, w1, None) →
         updateFunc obj1 w1 = (obj2, w2, Some err) →
         IsConflict err = false → err ≠ ErrWaitTimeout →
         GuaranteedUpdate DeepEqual cli updateFunc obj w
         = (mkState obj2 w2 [CallGet key None; CallUpdateFunc (Some err)], Some err))
  end.
Proof.
  destruct (ObjectKeyFromObject obj) as [key | err] eqn:Hkey.
  - split; [ | split; [ | split; [ | split ] ] ].
    + destruct (GuaranteedUpdate_cycles obj w key Hkey)
        as (retried & s' & e & Hch & Hall & Hlen & Hst & Hres).
      exists retried, s', e.
      split; [ done | ]. split; [ done | ]. split; [ done | ].
      intros c -> Hc Hne. rewrite Hc in Hres. auto.
    + intros s obj1 w1 err Hget. by apply attempt_fetch_error.
    + intros s obj1 w1 obj2 w2 err Hget Hmut.
      rewrite (attempt_mutate_error key s obj1 w1 obj2 w2 err) by done.
      by rewrite <- app_assoc.
    + intros obj1 w1 err Hget Hc Hne.
      unfold GuaranteedUpdate, RetryOnConflict, OnError. rewrite Hkey.
      change (Steps DefaultRetry) with 5. rewrite ExponentialBackoff_step.
      rewrite (attempt_fetch_error key (mkState obj w []) obj1 w1 err) by done.
      rewrite Hc. rewrite bool_decide_eq_false_2; [ done | congruence ].
    + intros obj1 w1 obj2 w2 err Hget Hmut Hc Hne.
      unfold GuaranteedUpdate, RetryOnConflict, OnError. rewrite Hkey.
      change (Steps DefaultRetry) with 5. rewrite ExponentialBackoff_step.
      rewrite (attempt_mutate_error key (mkState obj w []) obj1 w1 obj2 w2 err) by done.
      rewrite Hc. rewrite bool_decide_eq_false_2; [ done | congruence ].
  - unfold GuaranteedUpdate. by rewrite Hkey.
Qed.
End GuaranteedUpdate_properties.

(** * The properties on sample inputs *)

(** ** Key codec and direct mode *)

(** Two versions of the StatefulSet, with different labels, resource
    versions and contents, get the key "default/basic-tikv". *)
Lemma key_depends_on_namespace_and_name_witness :
  ∃ key,
    @DeletionHandlingMetaNamespaceKeyFunc verbatim (Object (tikv_set tikv_labels "11" "replicas=3"))
    = Ok key
    ∧ @DeletionHandlingMetaNamespaceKeyFunc verbatim
        (Object (tikv_set component_label "12" "replicas=5"))
      = Ok key
    ∧ key = "default/basic-tikv"
    ∧ ∀ (old : payload) (w : Env),
        deliver (@WatchForObject_handler verbatim)
                (OnAdd (Object (tikv_set tikv_labels "11" "replicas=3"))) w
        = (q_Add key w, Returned)
        ∧ deliver (@WatchForObject_handler verbatim)
                  (OnUpdate old (Object (tikv_set component_label "12" "replicas=5"))) w
          = (q_Add key w, Returned)
        ∧ deliver (@WatchForObject_handler verbatim)
                  (OnDelete (Object (tikv_set component_label "12" "replicas=5"))) w
          = (q_Add key w, Returned).
Proof.
  exact (@key_depends_on_namespace_and_name verbatim
           (tikv_set tikv_labels "11" "replicas=3")
           (tikv_set component_label "12" "replicas=5")
           (tikv_set_meta tikv_labels "11") (tikv_set_meta component_label "12")
           eq_refl eq_refl eq_refl eq_refl).
Defined.

Lemma direct_mode_enqueues_witness :
  deliver_all (@WatchForObject_handler verbatim) tikv_set_events no_events
  = (mkEnv ["default/basic-tikv"; "default/basic-tikv"; "default/basic-tikv"] [] [],
     Returned)
  ∧ deliver (@WatchForObject_handler verbatim) (OnAdd (Opaque "42")) no_events
    = (mkEnv [] [errorString "Cound't get key for object %+v: %v"] [], Returned).
Proof.
  assert (Habout : Forall (about "default" "basic-tikv") tikv_set_events).
  { constructor; [ | constructor; [ | constructor; [ | constructor ] ] ].
    - left. exists (tikv_set tikv_labels "11" "replicas=3"), (tikv_set_meta tikv_labels "11").
      repeat split; reflexivity.
    - left. exists (tikv_set tikv_labels "12" "replicas=5"), (tikv_set_meta tikv_labels "12").
      repeat split; reflexivity.
    - right. exists (Opaque "nil"). reflexivity. }
  destruct (@direct_mode_enqueues verbatim "default" "basic-tikv" tikv_set_events no_events
              Habout) as (Hall & _ & Hfail).
  split.
  - exact Hall.
  - exact (Hfail (OnAdd (Opaque "42")) (errorString "object has no meta: %v") no_events
                 eq_refl).
Defined.

(** ** Indirect mode *)

(** A ConfigMap named like the cluster is not taken for the controller. *)
Lemma indirect_kind_or_group_mismatch_witness :
  deliver (@WatchForController_handler verbatim configmap_lister None)
          (OnAdd (Object (tikv_set tikv_labels "11" "replicas=3"))) no_events
  = (no_events, Returned).
Proof.
  apply (@indirect_kind_or_group_mismatch verbatim configmap_lister None
           (OnAdd (Object (tikv_set tikv_labels "11" "replicas=3")))
           (tikv_set_meta tikv_labels "11") cluster_ref
           (GroupVersion.mk "tikv.org" "v1alpha1") basic_configmap no_events);
    try reflexivity.
  left. simpl. discriminate.
Defined.

(** A tombstone does not implement metav1.Object. *)
Lemma indirect_rejects_payload_without_metadata_witness :
  deliver (@WatchForController_handler verbatim cluster_lister None)
          (OnDelete (DeletedFinalStateUnknown "default/basic-tikv"
                       (Object (tikv_set tikv_labels "12" "replicas=5")))) no_events
  = (mkEnv [] [errorString "%+v is not a runtime.Object, cannot get controller from it"] [],
     Returned).
Proof.
  apply (@indirect_rejects_payload_without_metadata verbatim cluster_lister None
           (OnDelete (DeletedFinalStateUnknown "default/basic-tikv"
                        (Object (tikv_set tikv_labels "12" "replicas=5")))) no_events).
  reflexivity.
Defined.

(** ** Guaranteed updater *)

Lemma unchanged_object_is_not_written_witness :
  GuaranteedUpdate same_object store_cli leave_alone basic_cluster (mkStore basic_cluster 0 0)
  = (mkState basic_cluster (mkStore basic_cluster 0 1)
             [CallGet basic_key None; CallUpdateFunc None], None)
  ∧ writes (st_calls (GuaranteedUpdate same_object store_cli leave_alone basic_cluster
                        (mkStore basic_cluster 0 0)).1) = 0.
Proof.
  apply (unchanged_object_is_not_written same_object store_cli leave_alone
           basic_cluster (mkStore basic_cluster 0 0) basic_key
           basic_cluster (mkStore basic_cluster 0 0)
           basic_cluster (mkStore basic_cluster 0 1));
    reflexivity.
Defined.

(** The first write is refused with a conflict, the second goes through. *)
Lemma conflicts_are_retried_within_bound_witness :
  GuaranteedUpdate same_object store_cli (set_content "pd.replicas=5") basic_cluster
                   (mkStore basic_cluster 1 0)
  = (mkState (with_content "pd.replicas=5" basic_cluster)
             (mkStore (with_content "pd.replicas=5" basic_cluster) 0 2)
             [CallGet basic_key None; CallUpdateFunc None;
              CallUpdate (with_content "pd.replicas=5" basic_cluster) (Some conflict);
              CallGet basic_key None; CallUpdateFunc None;
              CallUpdate (with_content "pd.replicas=5" basic_cluster) None],
     None).
Proof.
  destruct (conflicts_are_retried_within_bound same_object store_cli
              (set_content "pd.replicas=5") basic_cluster (mkStore basic_cluster 1 0)
              basic_key eq_refl) as (_ & _ & _ & Htwice).
  apply (Htwice basic_cluster (mkStore basic_cluster 1 0)
                (with_content "pd.replicas=5" basic_cluster) (mkStore basic_cluster 1 1)
                (with_content "pd.replicas=5" basic_cluster) (mkStore basic_cluster 0 1)
                conflict
                basic_cluster (mkStore basic_cluster 0 1)
                (with_content "pd.replicas=5" basic_cluster) (mkStore basic_cluster 0 2)
                (with_content "pd.replicas=5" basic_cluster)
                (mkStore (with_content "pd.replicas=5" basic_cluster) 0 2));
    reflexivity.
Defined.

(** An update function that fails with a plain error, and an object without
    metadata. *)
Lemma other_failures_abort_witness :
  GuaranteedUpdate same_object store_cli (failing (errorString "pd is not ready"))
                   basic_cluster (mkStore basic_cluster 0 0)
  = (mkState basic_cluster (mkStore basic_cluster 0 1)
             [CallGet basic_key None; CallUpdateFunc (Some (errorString "pd is not ready"))],
     Some (errorString "pd is not ready"))
  ∧ GuaranteedUpdate same_object store_cli leave_alone bare_object
                     (mkStore basic_cluster 0 0)
    = (mkState bare_object (mkStore basic_cluster 0 0) [], Some errNotObject).
Proof.
  split.
  - pose proof (other_failures_abort same_object store_cli
                  (failing (errorString "pd is not ready"))
                  basic_cluster (mkStore basic_cluster 0 0)) as Hrun.
    change (ObjectKeyFromObject basic_cluster) with (Ok basic_key) in Hrun.
    destruct Hrun as (_ & _ & _ & _ & Hmut).
    apply (Hmut basic_cluster (mkStore basic_cluster 0 0)
                basic_cluster (mkStore basic_cluster 0 1));
      try reflexivity.
    discriminate.
  - exact (other_failures_abort same_object store_cli leave_alone bare_object
             (mkStore basic_cluster 0 0)).
Defined.

(** [updateFunc] fails with a conflict once: the cycle is run again,
    though the only write is accepted. *)
Lemma retried_without_write_conflict :
  GuaranteedUpdate same_object store_cli (conflict_once "pd.replicas=5") basic_cluster
                   (mkStore basic_cluster 0 0)
  = (mkState (with_content "pd.replicas=5" basic_cluster)
             (mkStore (with_content "pd.replicas=5" basic_cluster) 0 2)
             [CallGet basic_key None; CallUpdateFunc (Some conflict);
              CallGet basic_key None; CallUpdateFunc None;
              CallUpdate (with_content "pd.replicas=5" basic_cluster) None],
     None).
Proof. vm_compute. reflexivity. Qed.

(** [updateFunc] fails with a conflict every time: five fetch-mutate
    cycles are run before its error is returned. *)
Lemma updateFunc_conflict_is_retried :
  GuaranteedUpdate same_object store_cli (failing conflict) basic_cluster
                   (mkStore basic_cluster 0 0)
  = (mkState basic_cluster (mkStore basic_cluster 0 5)
             [CallGet basic_key None; CallUpdateFunc (Some conflict);
              CallGet basic_key None; CallUpdateFunc (Some conflict);
              CallGet basic_key None; CallUpdateFunc (Some conflict);
              CallGet basic_key None; CallUpdateFunc (Some conflict);
              CallGet basic_key None; CallUpdateFunc (Some conflict)],
     Some conflict).
Proof. vm_compute. reflexivity. Qed.

(** [retry.OnError] takes the sentinel of the wait package for its own
    timeout: when [updateFunc] returns it, the error kept from the last
    conflict is returned in its place, nil when there was none. *)
Example ErrWaitTimeout_is_replaced :
  (GuaranteedUpdate same_object store_cli (failing ErrWaitTimeout) basic_cluster
                    (mkStore basic_cluster 0 0)).2 = None.
Proof. vm_compute. reflexivity. Qed.

(** ** The library functions on samples *)

Example ParseGroupVersion_group :
  @ParseGroupVersion verbatim "tikv.org/v1alpha1" = Ok (GroupVersion.mk "tikv.org" "v1alpha1").
Proof. reflexivity. Qed.

Example ParseGroupVersion_core :
  @ParseGroupVersion verbatim "v1" = Ok (GroupVersion.mk "" "v1").
Proof. reflexivity. Qed.

Example ParseGroupVersion_empty :
  @ParseGroupVersion verbatim "" = Ok GroupVersion.empty.
Proof. reflexivity. Qed.

Example ParseGroupVersion_malformed :
  @ParseGroupVersion verbatim "tikv.org/v1alpha1/x"
  = Err (errorString "unexpected GroupVersion string: %v").
Proof. reflexivity. Qed.

Example GetControllerOf_tikv_set :
  GetControllerOf (tikv_set_meta tikv_labels "11") = Some cluster_ref.
Proof. reflexivity. Qed.

Example key_of_cluster_scoped_object :
  @DeletionHandlingMetaNamespaceKeyFunc verbatim
    (Object (mkRuntimeObject (GroupVersionKind.mk "" "v1" "Namespace")
                             (Some (ObjectMeta.mk "default" "" "1d" "1" 1 ∅ ∅ [])) ""))
  = Ok "default".
Proof. reflexivity. Qed.

(** ** The router on samples *)

(** Without a filter, two updates of the StatefulSet add the key of its
    cluster twice; collapsing them is left to the queue. *)
Example updates_enqueue_the_cluster :
  deliver_all (@WatchForController_handler verbatim cluster_lister None)
    [ OnUpdate (Object (tikv_set tikv_labels "11" "replicas=3"))
               (Object (tikv_set tikv_labels "12" "replicas=5"));
      OnUpdate (Object (tikv_set tikv_labels "12" "replicas=5"))
               (Object (tikv_set tikv_labels "13" "replicas=5")) ]
    no_events
  = (mkEnv ["default/basic"; "default/basic"] [] [], Returned).
Proof. vm_compute. reflexivity. Qed.

(** A controller that the lister does not hold is logged, not reported. *)
Example missing_controller_is_logged :
  deliver (@WatchForController_handler verbatim
             (λ _ _, (None, Some (StatusError StatusReasonNotFound "not found"))) None)
          (OnAdd (Object (tikv_set tikv_labels "11" "replicas=3"))) no_events
  = (mkEnv [] [] ["controller %s/%s of %s/%s not found, ignore"], Returned).
Proof. vm_compute. reflexivity. Qed.

(** A lookup function that returns neither an object nor an error makes the
    handler call a method on a nil interface. *)
Example nil_controller_panics :
  deliver (@WatchForController_handler verbatim (λ _ _, (None, None)) None)
          (OnAdd (Object (tikv_set tikv_labels "11" "replicas=3"))) no_events
  = (no_events, Panicked).
Proof. vm_compute. reflexivity. Qed.

(** * Further properties of util.go *)

(** ** Strings cut at a separator *)

Lemma length_append (s t : string) :
  String.length (s +:+ t) = String.length s + String.length t.
Proof. induction s as [| c s IH]; simpl; [ done | by rewrite IH ]. Qed.

Lemma Count_append (s t : string) (sep : ascii) :
  Count (s +:+ t) sep = Count s sep + Count t sep.
Proof. induction s as [| c s IH]; simpl; [ done | rewrite IH; lia ]. Qed.

Lemma Index_append_sep (s t : string) (sep : ascii) :
  Count s sep = 0 → Index (s +:+ String sep t) sep = Some (String.length s).
Proof.
  induction s as [| c s IH]; simpl.
  - intros _. by rewrite Ascii.eqb_refl.
  - destruct (Ascii.eqb c sep); [ discriminate | ].
    intros Hs. by rewrite (IH Hs).
Qed.

Lemma Index_None (s : string) (sep : ascii) : Count s sep = 0 → Index s sep = None.
Proof.
  induction s as [| c s IH]; simpl; [ done | ].
  destruct (Ascii.eqb c sep); [ discriminate | ].
  intros Hs. by rewrite (IH Hs).
Qed.

Lemma substring_prefix (s t : string) : substring 0 (String.length s) (s +:+ t) = s.
Proof.
  induction s as [| c s IH]; simpl; [ by destruct t | by rewrite IH ].
Qed.

Lemma substring_all (t : string) : substring 0 (String.length t) t = t.
Proof. induction t as [| c t IH]; simpl; [ done | by rewrite IH ]. Qed.

Lemma substring_suffix (s t : string) (sep : ascii) :
  substring (String.length s + 1) (String.length t) (s +:+ String sep t) = t.
Proof.
  induction s as [| c s IH]; simpl; [ apply substring_all | apply IH ].
Qed.

(** A string is cut at its first separator in one way only. *)
Lemma append_sep_inj (s s' t t' : string) (sep : ascii) :
  Count s sep = 0 → Count s' sep = 0 →
  s +:+ String sep t = s' +:+ String sep t' → s = s' ∧ t = t'.
Proof.
  revert s'. induction s as [| c s IH]; intros [| c' s']; simpl.
  - intros _ _ [= ->]. done.
  - intros _ Hs' [= <- _]. rewrite Ascii.eqb_refl in Hs'. discriminate.
  - intros Hs _ [= -> _]. rewrite Ascii.eqb_refl in Hs. discriminate.
  - intros Hs Hs' [= -> Heq].
    destruct (Ascii.eqb c' sep); [ discriminate | ].
    destruct (IH s' Hs Hs' Heq) as [-> ->]. done.
Qed.

(** ** Group versions and owner references *)

Section GroupVersion_properties.
Context `{Printer}.

Lemma ParseGroupVersion_many_slashes (gv : string) :
  (2 ≤ Count gv "/")%nat →
  ParseGroupVersion gv = Err (Errorf "unexpected GroupVersion string: %v" [a_string gv]).
Proof.
  intros Hcount. unfold ParseGroupVersion.
  destruct gv as [| c gv]; [ simpl in Hcount; lia | ].
  cbn [String.length Nat.eqb orb].
  case_bool_decide as Hslash; [ rewrite Hslash in Hcount; simpl in Hcount; lia | ].
  destruct (Count (String c gv) "/") as [| [| n]]; [ lia | lia | ].
  by destruct (Index (String c gv) "/").
Qed.

(** A group and a version without a slash survive [String] followed by
    [ParseGroupVersion]. *)
Lemma ParseGroupVersion_String (gv : GroupVersion.t) :
  Count (GroupVersion.Group gv) "/" = 0 →
  Count (GroupVersion.Version gv) "/" = 0 →
  ParseGroupVersion (GroupVersion_String gv) = Ok gv.
Proof.
  destruct gv as [g v]. cbn [GroupVersion.Group GroupVersion.Version].
  intros Hg Hv. unfold GroupVersion_String, GroupVersion_Empty.
  cbn [GroupVersion.Group GroupVersion.Version].
  destruct g as [| c g].
  - (* no group: the version alone *)
    cbn [String.length Nat.eqb Nat.ltb Nat.leb andb].
    assert (Hparse : ParseGroupVersion v = Ok (GroupVersion.mk "" v)).
    { unfold ParseGroupVersion. destruct v as [| c v]; [ done | ].
      cbn [String.length Nat.eqb orb].
      case_bool_decide as Hslash; [ rewrite Hslash in Hv; discriminate | ].
      by rewrite Hv. }
    destruct v as [| c v]; [ done | ].
    cbn [String.length Nat.eqb]. by destruct (bool_decide _).
  - (* group/version *)
    cbn [String.length Nat.eqb Nat.ltb Nat.leb andb].
    unfold ParseGroupVersion.
    change (String c g +:+ "/" +:+ v) with (String c g +:+ String "/" v).
    assert (Hlen : String.length (String c g +:+ String "/" v)
                   = String.length (String c g) + 1 + String.length v).
    { rewrite length_append. simpl. lia. }
    destruct (String.length (String c g +:+ String "/" v) =? 0)%nat eqn:Hzero;
      [ apply Nat.eqb_eq in Hzero; rewrite Hlen in Hzero; lia | ].
    cbn [orb].
    case_bool_decide as Hslash.
    { apply (f_equal String.length) in Hslash. rewrite Hlen in Hslash.
      simpl in Hslash. lia. }
    rewrite Count_append, Hg. cbn [Count]. rewrite Ascii.eqb_refl, Hv.
    cbn [Nat.add]. rewrite (Index_append_sep _ _ _ Hg).
    rewrite substring_prefix.
    replace (String.length (String c g +:+ String "/" v) - (String.length (String c g) + 1))
      with (String.length v) by lia.
    by rewrite substring_suffix.
Qed.
End GroupVersion_properties.

Section OwnerReference_properties.
Context `{Printer}.
Variable SchemeGroupVersion : GroupVersion.t.

(** X1: on an object whose first owner reference is the one [GetOwnerRef]
    builds for a cluster, [metav1.GetControllerOf] returns that reference,
    and its APIVersion parses back to the scheme's group and version, as
    long as neither holds a slash. *)
Theorem owner_reference_resolves
    (tc : TikvCluster) (meta : ObjectMeta.t) (others : list OwnerReference.t) :
  Count (GroupVersion.Group SchemeGroupVersion) "/" = 0 →
  Count (GroupVersion.Version SchemeGroupVersion) "/" = 0 →
  ObjectMeta.OwnerReferences meta = GetOwnerRef SchemeGroupVersion tc :: others →
  GetControllerOf meta = Some (GetOwnerRef SchemeGroupVersion tc)
  ∧ ParseGroupVersion (OwnerReference.APIVersion (GetOwnerRef SchemeGroupVersion tc))
    = Ok SchemeGroupVersion.
Proof.
  intros Hg Hv Howners. split.
  - unfold GetControllerOf. by rewrite Howners.
  - unfold GetOwnerRef, ControllerKind, WithKind, GroupVersionKind_GroupVersion.
    cbn [OwnerReference.APIVersion GroupVersionKind.Group GroupVersionKind.Version].
    destruct SchemeGroupVersion as [g v]. by apply ParseGroupVersion_String.
Qed.

(** X2: an event on an object that lives in the namespace of a cluster and
    whose first owner reference is the one [GetOwnerRef] builds for it adds
    the key of the cluster, when the lookup function returns the cluster
    (with its kind set to [ControllerKind]) and the filter, if any, lets the
    labels through. *)
Theorem owned_object_routes_to_cluster
    (fn : GetControllerFn) (m : option (gmap string string)) (tc : TikvCluster)
    (e : Event) (meta : ObjectMeta.t) (others : list OwnerReference.t) (w : Env) :
  Count (GroupVersion.Group SchemeGroupVersion) "/" = 0 →
  Count (GroupVersion.Version SchemeGroupVersion) "/" = 0 →
  tc_TypeMeta tc = ControllerKind SchemeGroupVersion →
  as_metav1_Object (current e) = Some meta →
  ObjectMeta.Namespace meta = ObjectMeta.Namespace (tc_ObjectMeta tc) →
  ObjectMeta.OwnerReferences meta = GetOwnerRef SchemeGroupVersion tc :: others →
  (∀ filter, m = Some filter → IsSubMapOf filter (ObjectMeta.Labels meta) = true) →
  fn (ObjectMeta.Namespace meta) (ObjectMeta.Name (tc_ObjectMeta tc))
  = (Some (TikvCluster_Object tc), None) →
  deliver (WatchForController_handler fn m) e w
  = (q_Add (KeyOf (ObjectMeta.Namespace (tc_ObjectMeta tc))
                  (ObjectMeta.Name (tc_ObjectMeta tc))) w,
     Returned).
Proof.
  intros Hg Hv Hkind Hmeta Hns Howners Hfilter Hfn.
  rewrite indirect_deliver. unfold WatchForController_enqueueFn. rewrite Hmeta.
  assert (Hpass : match m with
                  | Some m0 => negb (IsSubMapOf m0 (ObjectMeta.Labels meta))
                  | None => false
                  end = false).
  { destruct m as [filter|]; [ | done ]. by rewrite (Hfilter filter eq_refl). }
  rewrite Hpass.
  assert (Href : GetControllerOf meta = Some (GetOwnerRef SchemeGroupVersion tc)).
  { unfold GetControllerOf. by rewrite Howners. }
  assert (Hparse : ParseGroupVersion
                     (OwnerReference.APIVersion (GetOwnerRef SchemeGroupVersion tc))
                   = Ok SchemeGroupVersion).
  { unfold GetOwnerRef, ControllerKind, WithKind, GroupVersionKind_GroupVersion.
    cbn [OwnerReference.APIVersion GroupVersionKind.Group GroupVersionKind.Version].
    destruct SchemeGroupVersion as [g v]. by apply ParseGroupVersion_String. }
  rewrite Href, Hparse.
  cbn [GetOwnerRef OwnerReference.Name OwnerReference.Kind]. rewrite Hfn.
  cbn [TikvCluster_Object ObjectKind]. rewrite Hkind.
  cbn [ControllerKind WithKind GroupVersionKind.Kind GroupVersionKind.Group].
  rewrite !bool_decide_eq_true_2 by done. cbn [andb].
  rewrite (key_of_live_object (ObjectMeta.Namespace (tc_ObjectMeta tc))
             (ObjectMeta.Name (tc_ObjectMeta tc))); [ done | ].
  by exists (TikvCluster_Object tc), (tc_ObjectMeta tc).
Qed.
End OwnerReference_properties.

(** ** Keys of distinct objects *)

Section KeyCodec_more.
Context `{Printer}.

Lemma KeyOf_inj (ns1 name1 ns2 name2 : string) :
  Count ns1 "/" = 0 → Count name1 "/" = 0 →
  Count ns2 "/" = 0 → Count name2 "/" = 0 →
  KeyOf ns1 name1 = KeyOf ns2 name2 → ns1 = ns2 ∧ name1 = name2.
Proof.
  intros Hns1 Hname1 Hns2 Hname2. unfold KeyOf.
  destruct ns1 as [| c1 ns1], ns2 as [| c2 ns2];
    cbn [String.length Nat.ltb Nat.leb].
  - done.
  - intros ->. rewrite Count_append in Hname1. simpl in Hname1. lia.
  - intros <-. rewrite Count_append in Hname2. simpl in Hname2. lia.
  - change (?s +:+ "/" +:+ ?t) with (s +:+ String "/" t).
    intros Heq. by apply (append_sep_inj _ _ _ _ "/").
Qed.

(** X3: two objects with metadata whose namespaces and names hold no slash
    get the same key from [DeletionHandlingMetaNamespaceKeyFunc] only when
    they have the same namespace and the same name. *)
Theorem equal_keys_name_one_object (o1 o2 : RuntimeObject) (m1 m2 : ObjectMeta.t) :
  Meta o1 = Some m1 → Meta o2 = Some m2 →
  Count (ObjectMeta.Namespace m1) "/" = 0 → Count (ObjectMeta.Name m1) "/" = 0 →
  Count (ObjectMeta.Namespace m2) "/" = 0 → Count (ObjectMeta.Name m2) "/" = 0 →
  DeletionHandlingMetaNamespaceKeyFunc (Object o1)
  = DeletionHandlingMetaNamespaceKeyFunc (Object o2) →
  ObjectMeta.Namespace m1 = ObjectMeta.Namespace m2
  ∧ ObjectMeta.Name m1 = ObjectMeta.Name m2.
Proof.
  intros H1 H2 Hns1 Hname1 Hns2 Hname2.
  rewrite (key_of_live_object (ObjectMeta.Namespace m1) (ObjectMeta.Name m1))
    by (by exists o1, m1).
  rewrite (key_of_live_object (ObjectMeta.Namespace m2) (ObjectMeta.Name m2))
    by (by exists o2, m2).
  intros [= Heq]. by apply KeyOf_inj.
Qed.
End KeyCodec_more.

(** ** Event router, filtered indirect mode: whose key is added *)

Section FilteredIndirectMode_key.
Context `{Printer}.
Variable fn : GetControllerFn.

(** C4, as the code has it: with a filter, an event whose object's labels
    do not contain every pair of the filter adds no key; an event whose
    labels do contain them adds the key of the controller object that the
    lookup returned, when it resolves and matches; any key the handler
    adds is derived from the object the lookup returned, not from the
    event's object; and, for namespaces and names without a slash, that
    key is the event object's own key exactly when the controller object
    has the namespace and the name of the event's object. *)
Theorem filtered_indirect_mode
    (filter : gmap string string) (e : Event) (meta : ObjectMeta.t) (w : Env) :
  as_metav1_Object (current e) = Some meta →
  (¬ (filter ⊆ ObjectMeta.Labels meta) →
     deliver (WatchForController_handler fn (Some filter)) e w = (w, Returned))
  ∧ (filter ⊆ ObjectMeta.Labels meta →
     ∀ ref refGV controllerObj key,
       GetControllerOf meta = Some ref →
       ParseGroupVersion (OwnerReference.APIVersion ref) = Ok refGV →
       fn (ObjectMeta.Namespace meta) (OwnerReference.Name ref)
       = (Some controllerObj, None) →
       OwnerReference.Kind ref = GroupVersionKind.Kind (ObjectKind controllerObj) →
       GroupVersion.Group refGV = GroupVersionKind.Group (ObjectKind controllerObj) →
       DeletionHandlingMetaNamespaceKeyFunc (Object controllerObj) = Ok key →
       deliver (WatchForController_handler fn (Some filter)) e w
       = (q_Add key w, Returned))
  ∧ (∀ key,
       q (deliver (WatchForController_handler fn (Some filter)) e w).1 = q w ++ [key] →
       ∃ ref controllerObj,
         GetControllerOf meta = Some ref
         ∧ fn (ObjectMeta.Namespace meta) (OwnerReference.Name ref)
           = (Some controllerObj, None)
         ∧ DeletionHandlingMetaNamespaceKeyFunc (Object controllerObj) = Ok key)
  ∧ (∀ controllerObj cmeta,
       Meta controllerObj = Some cmeta →
       Count (ObjectMeta.Namespace meta) "/" = 0 →
       Count (ObjectMeta.Name meta) "/" = 0 →
       Count (ObjectMeta.Namespace cmeta) "/" = 0 →
       Count (ObjectMeta.Name cmeta) "/" = 0 →
       (DeletionHandlingMetaNamespaceKeyFunc (Object controllerObj)
        = DeletionHandlingMetaNamespaceKeyFunc (current e)
        ↔ ObjectMeta.Namespace cmeta = ObjectMeta.Namespace meta
          ∧ ObjectMeta.Name cmeta = ObjectMeta.Name meta)).
Proof.
  intros Hmeta. rewrite indirect_deliver.
  split; [ | split; [ | split ] ].
  - intros Hsub. unfold WatchForController_enqueueFn, IsSubMapOf.
    rewrite Hmeta, (bool_decide_eq_false_2 _ Hsub). reflexivity.
  - intros Hsub ref refGV controllerObj key Href Hgv Hfn Hkind Hgroup Hkey.
    unfold WatchForController_enqueueFn, IsSubMapOf.
    rewrite Hmeta, (bool_decide_eq_true_2 _ Hsub). simpl.
    rewrite Href, Hgv, Hfn.
    rewrite (bool_decide_eq_true_2 _ Hkind), (bool_decide_eq_true_2 _ Hgroup). simpl.
    rewrite Hkey. reflexivity.
  - intros key Hq.
    destruct (indirect_enqueues_controller_key _ _ _ _ _ Hq)
      as (meta' & ref & controllerObj & Hmeta' & Href & Hfn & Hkey).
    rewrite Hmeta in Hmeta'. injection Hmeta' as <-.
    exists ref, controllerObj. auto.
  - intros controllerObj cmeta Hcmeta Hns Hname Hcns Hcname.
    assert (Hown : identifies (ObjectMeta.Namespace meta) (ObjectMeta.Name meta) (current e)).
    { destruct (current e) as [o | | |]; try discriminate. by exists o, meta. }
    rewrite (key_of_live_object _ _ _ Hown).
    rewrite (key_of_live_object (ObjectMeta.Namespace cmeta) (ObjectMeta.Name cmeta)
               (Object controllerObj)) by (by exists controllerObj, cmeta).
    split.
    + intros [= Heq]. by apply KeyOf_inj.
    + intros [-> ->]. done.
Qed.
End FilteredIndirectMode_key.

(** With the filter on the managed-by label, an event for a StatefulSet
    without that label adds nothing, an event for a labelled one adds the
    key of the cluster, and that key is not the key of the StatefulSet. *)
Lemma filtered_indirect_mode_witness :
  deliver (@WatchForController_handler verbatim cluster_lister (Some managed_by_filter))
          (OnAdd (Object (tikv_set component_label "11" "replicas=3"))) no_events
  = (no_events, Returned)
  ∧ deliver (@WatchForController_handler verbatim cluster_lister (Some managed_by_filter))
            (OnAdd (Object (tikv_set tikv_labels "11" "replicas=3"))) no_events
    = (mkEnv ["default/basic"] [] [], Returned)
  ∧ @DeletionHandlingMetaNamespaceKeyFunc verbatim (Object basic_cluster)
    ≠ @DeletionHandlingMetaNamespaceKeyFunc verbatim
        (Object (tikv_set tikv_labels "11" "replicas=3")).
Proof.
  split; [ | split ].
  - destruct (@filtered_indirect_mode verbatim cluster_lister managed_by_filter
                (OnAdd (Object (tikv_set component_label "11" "replicas=3")))
                (tikv_set_meta component_label "11") no_events eq_refl)
      as (Hdrop & _ & _ & _).
    apply Hdrop.
    apply (bool_decide_eq_false_1 (managed_by_filter ⊆ component_label)).
    vm_compute. reflexivity.
  - destruct (@filtered_indirect_mode verbatim cluster_lister managed_by_filter
                (OnAdd (Object (tikv_set tikv_labels "11" "replicas=3")))
                (tikv_set_meta tikv_labels "11") no_events eq_refl)
      as (_ & Hkeep & _ & _).
    assert (Hsub : managed_by_filter ⊆ tikv_labels).
    { apply (bool_decide_eq_true_1 (managed_by_filter ⊆ tikv_labels)).
      vm_compute. reflexivity. }
    apply (Hkeep Hsub cluster_ref (GroupVersion.mk "tikv.org" "v1alpha1") basic_cluster
                 "default/basic");
      reflexivity.
  - destruct (@filtered_indirect_mode verbatim cluster_lister managed_by_filter
                (OnAdd (Object (tikv_set tikv_labels "11" "replicas=3")))
                (tikv_set_meta tikv_labels "11") no_events eq_refl)
      as (_ & _ & _ & Hown).
    intros Hsame.
    apply (Hown basic_cluster (ObjectMeta.mk "basic" "default" "c0ffee" "41" 1 ∅ ∅ [])
                eq_refl eq_refl eq_refl eq_refl eq_refl) in Hsame.
    destruct Hsame as [_ Hname]. discriminate Hname.
Defined.

(** A StatefulSet that has the name of its cluster passes the filter and
    resolves to the cluster: the key added is the key of the cluster, and
    it is the StatefulSet's own key as well. *)
Lemma child_named_like_its_controller :
  deliver (@WatchForController_handler verbatim cluster_lister (Some managed_by_filter))
          (OnAdd (Object namesake_set)) no_events
  = (mkEnv ["default/basic"] [] [], Returned)
  ∧ @DeletionHandlingMetaNamespaceKeyFunc verbatim (Object namesake_set)
    = Ok "default/basic"
  ∧ @DeletionHandlingMetaNamespaceKeyFunc verbatim (Object basic_cluster)
    = Ok "default/basic".
Proof. repeat split; vm_compute; reflexivity. Qed.

(** ** Event router: what every event leaves behind *)

Section Router_invariants.
Context `{Printer}.

Lemma direct_effect (obj : payload) (w : Env) :
  (∃ key, WatchForObject_enqueueFn obj w = (q_Add key w, Returned))
  ∨ (∃ err, WatchForObject_enqueueFn obj w = (HandleError err w, Returned)).
Proof.
  unfold WatchForObject_enqueueFn.
  destruct (DeletionHandlingMetaNamespaceKeyFunc obj); eauto.
Qed.

(** X4: in direct mode no event is lost and none is handled twice: after
    any sequence of events the handler has returned every time, the keys
    and the reported errors that were there are still there in front, no
    line is logged, and the queue and the reported errors have grown by
    one entry per event, together. *)
Theorem direct_mode_accounts_for_every_event (es : list Event) (w : Env) :
  ∃ w',
    deliver_all WatchForObject_handler es w = (w', Returned)
    ∧ q w `prefix_of` q w'
    ∧ handled w `prefix_of` handled w'
    ∧ klogV4 w' = klogV4 w
    ∧ length (q w') + length (handled w')
      = length (q w) + length (handled w) + length es.
Proof.
  revert w. induction es as [| e es IH]; intros w.
  - exists w. simpl. repeat split; try done; lia.
  - cbn [deliver_all]. rewrite direct_deliver.
    destruct (direct_effect (current e) w) as [[key ->] | [err ->]].
    + destruct (IH (q_Add key w)) as (w' & -> & Hq & Hh & Hk & Hlen).
      exists w'. simpl in *. rewrite length_app in Hlen. simpl in Hlen.
      split; [ done | ].
      split; [ by eapply prefix_app_l | ].
      repeat split; try done. lia.
    + destruct (IH (HandleError err w)) as (w' & -> & Hq & Hh & Hk & Hlen).
      exists w'. simpl in *. rewrite length_app in Hlen. simpl in Hlen.
      split; [ done | ]. split; [ done | ].
      split; [ by eapply prefix_app_l | ].
      split; [ done | lia ].
Qed.

Variable fn : GetControllerFn.
Variable m : option (gmap string string).

Lemma indirect_effect (obj : payload) (w : Env) :
  (∀ ns name, fn ns name ≠ (None, None)) →
  ∃ keys errs lines,
    WatchForController_enqueueFn fn m obj w
    = (mkEnv (q w ++ keys) (handled w ++ errs) (klogV4 w ++ lines), Returned)
    ∧ (length keys + length errs + length lines ≤ 1)%nat.
Proof.
  intros Hfn.
  assert (Hsame : (w, Returned) = (mkEnv (q w ++ []) (handled w ++ []) (klogV4 w ++ []),
                                   Returned)).
  { destruct w. simpl. by rewrite !app_nil_r. }
  assert (Hkey : ∀ key, (q_Add key w, Returned)
                        = (mkEnv (q w ++ [key]) (handled w ++ []) (klogV4 w ++ []),
                           Returned)).
  { intros key. unfold q_Add. by rewrite !app_nil_r. }
  assert (Herr : ∀ err, (HandleError err w, Returned)
                        = (mkEnv (q w ++ []) (handled w ++ [err]) (klogV4 w ++ []),
                           Returned)).
  { intros err. unfold HandleError. by rewrite !app_nil_r. }
  assert (Hlog : ∀ line, (klog_V4_Info line w, Returned)
                         = (mkEnv (q w ++ []) (handled w ++ []) (klogV4 w ++ [line]),
                            Returned)).
  { intros line. unfold klog_V4_Info. by rewrite !app_nil_r. }
  unfold WatchForController_enqueueFn.
  destruct (as_metav1_Object obj) as [meta|];
    [ | eexists [], [_], []; split; [ apply Herr | simpl; lia ] ].
  destruct (match m with
            | Some m0 => negb (IsSubMapOf m0 (ObjectMeta.Labels meta))
            | None => false
            end);
    [ exists [], [], []; split; [ apply Hsame | simpl; lia ] | ].
  destruct (GetControllerOf meta) as [ref|];
    [ | exists [], [], []; split; [ apply Hsame | simpl; lia ] ].
  destruct (ParseGroupVersion (OwnerReference.APIVersion ref)) as [refGV|];
    [ | eexists [], [_], []; split; [ apply Herr | simpl; lia ] ].
  destruct (fn (ObjectMeta.Namespace meta) (OwnerReference.Name ref))
    as [[controllerObj|] [err|]] eqn:Hlookup.
  - destruct (IsNotFound err).
    + eexists [], [], [_]. split; [ apply Hlog | simpl; lia ].
    + eexists [], [_], []. split; [ apply Herr | simpl; lia ].
  - destruct (bool_decide _ && bool_decide _);
      [ | exists [], [], []; split; [ apply Hsame | simpl; lia ] ].
    destruct (DeletionHandlingMetaNamespaceKeyFunc (Object controllerObj)).
    + eexists [_], [], []. split; [ apply Hkey | simpl; lia ].
    + eexists [], [_], []. split; [ apply Herr | simpl; lia ].
  - destruct (IsNotFound err).
    + eexists [], [], [_]. split; [ apply Hlog | simpl; lia ].
    + eexists [], [_], []. split; [ apply Herr | simpl; lia ].
  - by apply Hfn in Hlookup.
Qed.

(** X5: in indirect mode, with a lookup function that never returns a nil
    object together with a nil error, the handler returns on every event
    of any sequence; what was queued, reported and logged before is still
    there in front; and an event leaves at most one trace: a key, a
    reported error or a log line. *)
Theorem indirect_mode_returns (es : list Event) (w : Env) :
  (∀ ns name, fn ns name ≠ (None, None)) →
  ∃ w',
    deliver_all (WatchForController_handler fn m) es w = (w', Returned)
    ∧ q w `prefix_of` q w'
    ∧ handled w `prefix_of` handled w'
    ∧ klogV4 w `prefix_of` klogV4 w'
    ∧ (length (q w') + length (handled w') + length (klogV4 w')
       ≤ length (q w) + length (handled w) + length (klogV4 w) + length es)%nat.
Proof.
  intros Hfn. revert w. induction es as [| e es IH]; intros w.
  - exists w. simpl. repeat split; try done; lia.
  - cbn [deliver_all]. rewrite indirect_deliver.
    destruct (indirect_effect (current e) w Hfn) as (keys & errs & lines & -> & Hone).
    destruct (IH (mkEnv (q w ++ keys) (handled w ++ errs) (klogV4 w ++ lines)))
      as (w' & -> & Hq & Hh & Hk & Hlen).
    exists w'. simpl in *. rewrite !length_app in Hlen.
    split; [ done | ].
    split; [ by eapply prefix_app_l | ].
    split; [ by eapply prefix_app_l | ].
    split; [ by eapply prefix_app_l | lia ].
Qed.
End Router_invariants.

(** ** Event router, indirect mode: events that add no key *)

Section IndirectMode_more.
Context `{Printer}.
Variable fn : GetControllerFn.
Variable m : option (gmap string string).

Lemma GetControllerOf_none (meta : ObjectMeta.t) :
  Forall (λ ref, OwnerReference.Controller ref ≠ Some true)
         (ObjectMeta.OwnerReferences meta) →
  GetControllerOf meta = None.
Proof.
  unfold GetControllerOf. induction 1 as [| ref refs Href _ IH]; [ done | ].
  simpl. by destruct (OwnerReference.Controller ref) as [[|]|].
Qed.

(** X6: an event on an object none of whose owner references has its
    controller flag set and true is dropped: nothing is added, reported or
    logged, and the lookup function plays no part. *)
Theorem object_without_controller_is_dropped (e : Event) (meta : ObjectMeta.t) (w : Env) :
  as_metav1_Object (current e) = Some meta →
  Forall (λ ref, OwnerReference.Controller ref ≠ Some true)
         (ObjectMeta.OwnerReferences meta) →
  deliver (WatchForController_handler fn m) e w = (w, Returned).
Proof.
  intros Hmeta Hnone. rewrite indirect_deliver.
  unfold WatchForController_enqueueFn.
  rewrite Hmeta, (GetControllerOf_none meta Hnone).
  by destruct (match m with Some _ => _ | None => _ end).
Qed.

(** X7: when the labels pass the filter and the APIVersion of the
    controller reference holds two slashes or more, the handler reports
    one error and returns; nothing is added and the lookup function plays
    no part. *)
Theorem unparsable_reference_is_reported
    (e : Event) (meta : ObjectMeta.t) (ref : OwnerReference.t) (w : Env) :
  as_metav1_Object (current e) = Some meta →
  (∀ filter, m = Some filter → IsSubMapOf filter (ObjectMeta.Labels meta) = true) →
  GetControllerOf meta = Some ref →
  (2 ≤ Count (OwnerReference.APIVersion ref) "/")%nat →
  deliver (WatchForController_handler fn m) e w
  = (mkEnv (q w)
           (handled w
            ++ [Errorf "cannot parse group version for the controller %v of %s/%s"
                       [a_ref ref; a_string (ObjectMeta.Namespace meta);
                        a_string (ObjectMeta.Name meta)]])
           (klogV4 w),
     Returned).
Proof.
  intros Hmeta Hfilter Href Hslashes. rewrite indirect_deliver.
  unfold WatchForController_enqueueFn. rewrite Hmeta.
  replace (match m with
           | Some m0 => negb (IsSubMapOf m0 (ObjectMeta.Labels meta))
           | None => false
           end) with false
    by (destruct m as [filter|]; [ by rewrite (Hfilter filter eq_refl) | done ]).
  by rewrite Href, (ParseGroupVersion_many_slashes _ Hslashes).
Qed.

(** X8: when the lookup function returns an error, no key is added,
    whether or not an object comes with the error: a not-found error
    leaves one log line and no reported error, any other error is
    reported. *)
Theorem failed_lookup_adds_no_key
    (e : Event) (meta : ObjectMeta.t) (ref : OwnerReference.t) (refGV : GroupVersion.t)
    (found : option RuntimeObject) (err : error) (w : Env) :
  as_metav1_Object (current e) = Some meta →
  (∀ filter, m = Some filter → IsSubMapOf filter (ObjectMeta.Labels meta) = true) →
  GetControllerOf meta = Some ref →
  ParseGroupVersion (OwnerReference.APIVersion ref) = Ok refGV →
  fn (ObjectMeta.Namespace meta) (OwnerReference.Name ref) = (found, Some err) →
  deliver (WatchForController_handler fn m) e w
  = if IsNotFound err
    then (mkEnv (q w) (handled w)
                (klogV4 w
                 ++ [Sprintf "controller %s/%s of %s/%s not found, ignore"
                             [a_string (ObjectMeta.Namespace meta);
                              a_string (OwnerReference.Name ref);
                              a_string (ObjectMeta.Namespace meta);
                              a_string (ObjectMeta.Name meta)]]),
          Returned)
    else (mkEnv (q w)
                (handled w
                 ++ [Errorf "cannot get controller %s/%s of %s/%s"
                            [a_string (ObjectMeta.Namespace meta);
                             a_string (OwnerReference.Name ref);
                             a_string (ObjectMeta.Namespace meta);
                             a_string (ObjectMeta.Name meta)]])
                (klogV4 w),
          Returned).
Proof.
  intros Hmeta Hfilter Href Hgv Hlookup. rewrite indirect_deliver.
  unfold WatchForController_enqueueFn. rewrite Hmeta.
  replace (match m with
           | Some m0 => negb (IsSubMapOf m0 (ObjectMeta.Labels meta))
           | None => false
           end) with false
    by (destruct m as [filter|]; [ by rewrite (Hfilter filter eq_refl) | done ]).
  rewrite Href, Hgv, Hlookup.
  destruct found; by destruct (IsNotFound err).
Qed.

(** X9: the handler adds a key exactly when the object of the event has
    metadata, its labels pass the filter, it has a controller reference
    whose APIVersion parses, the lookup function returns an object and no
    error for the namespace of the object and the name of the reference,
    kind and group of the reference are those of the object returned, and
    the key is the one derived from that object. *)
Theorem indirect_enqueue_iff (obj : payload) (w : Env) (key : string) :
  q (WatchForController_enqueueFn fn m obj w).1 = q w ++ [key]
  ↔ ∃ meta ref refGV controllerObj,
      as_metav1_Object obj = Some meta
      ∧ (∀ filter, m = Some filter → IsSubMapOf filter (ObjectMeta.Labels meta) = true)
      ∧ GetControllerOf meta = Some ref
      ∧ ParseGroupVersion (OwnerReference.APIVersion ref) = Ok refGV
      ∧ fn (ObjectMeta.Namespace meta) (OwnerReference.Name ref) = (Some controllerObj, None)
      ∧ OwnerReference.Kind ref = GroupVersionKind.Kind (ObjectKind controllerObj)
      ∧ GroupVersion.Group refGV = GroupVersionKind.Group (ObjectKind controllerObj)
      ∧ DeletionHandlingMetaNamespaceKeyFunc (Object controllerObj) = Ok key.
Proof.
  split.
  - unfold WatchForController_enqueueFn.
    destruct (as_metav1_Object obj) as [meta|] eqn:Hmeta; simpl;
      [ | intros Hq; by apply queue_not_grown in Hq ].
    destruct (match m with
              | Some m0 => negb (IsSubMapOf m0 (ObjectMeta.Labels meta))
              | None => false
              end) eqn:Hpass; simpl; [ intros Hq; by apply queue_not_grown in Hq | ].
    destruct (GetControllerOf meta) as [ref|] eqn:Href; simpl;
      [ | intros Hq; by apply queue_not_grown in Hq ].
    destruct (ParseGroupVersion (OwnerReference.APIVersion ref)) as [refGV|] eqn:Hgv; simpl;
      [ | intros Hq; by apply queue_not_grown in Hq ].
    destruct (fn (ObjectMeta.Namespace meta) (OwnerReference.Name ref))
      as [[controllerObj|] [err|]] eqn:Hlookup; simpl;
      try (destruct (IsNotFound err); simpl);
      try (intros Hq; by apply queue_not_grown in Hq).
    destruct (bool_decide (OwnerReference.Kind ref
                           = GroupVersionKind.Kind (ObjectKind controllerObj))) eqn:Hkind;
      simpl; [ | intros Hq; by apply queue_not_grown in Hq ].
    destruct (bool_decide (GroupVersion.Group refGV
                           = GroupVersionKind.Group (ObjectKind controllerObj))) eqn:Hgroup;
      simpl; [ | intros Hq; by apply queue_not_grown in Hq ].
    destruct (DeletionHandlingMetaNamespaceKeyFunc (Object controllerObj))
      as [key'|] eqn:Hkey; simpl;
      [ | intros Hq; by apply queue_not_grown in Hq ].
    intros Hq. apply app_inv_head in Hq. injection Hq as ->.
    exists meta, ref, refGV, controllerObj.
    split; [ done | ].
    split.
    { intros filter ->. by apply negb_false_iff in Hpass. }
    apply bool_decide_eq_true_1 in Hkind. apply bool_decide_eq_true_1 in Hgroup.
    done.
  - intros (meta & ref & refGV & controllerObj
            & Hmeta & Hfilter & Href & Hgv & Hlookup & Hkind & Hgroup & Hkey).
    unfold WatchForController_enqueueFn. rewrite Hmeta.
    replace (match m with
             | Some m0 => negb (IsSubMapOf m0 (ObjectMeta.Labels meta))
             | None => false
             end) with false
      by (destruct m as [filter|]; [ by rewrite (Hfilter filter eq_refl) | done ]).
    rewrite Href, Hgv, Hlookup.
    rewrite (bool_decide_eq_true_2 _ Hkind), (bool_decide_eq_true_2 _ Hgroup).
    cbn [andb]. by rewrite Hkey.
Qed.
End IndirectMode_more.

(** ** Guaranteed updater: writes, bounds and results *)

Section GuaranteedUpdate_more.
Context {World : Type}.
Variable DeepEqual : RuntimeObject → RuntimeObject → bool.
Variable cli : Client World.
Variable updateFunc : Mutation World.

(** X10: when the first cycle fetches, mutates, finds the object changed
    and writes, and the write returns nil or an error that is neither a
    conflict nor [wait.ErrWaitTimeout], there is no second cycle:
    [GuaranteedUpdate] returns what the write returned after exactly one
    fetch, one call of [updateFunc] and one write, and what is written is
    the object as [updateFunc] left it. *)
Theorem changed_object_is_written_once obj w key obj1 w1 obj2 w2 obj3 w3 err :
  ObjectKeyFromObject obj = Ok key →
  Get cli key obj w = (obj1, w1, None) →
  updateFunc obj1 w1 = (obj2, w2, None) →
  DeepEqual obj2 obj1 = false →
  Update cli obj2 w2 = (obj3, w3, err) →
  (∀ c, err = Some c → IsConflict c = false ∧ c ≠ ErrWaitTimeout) →
  GuaranteedUpdate DeepEqual cli updateFunc obj w
  = (mkState obj3 w3 [CallGet key None; CallUpdateFunc None; CallUpdate obj2 err], err).
Proof.
  intros Hkey Hget Hmut Hne Hupd Herr.
  unfold GuaranteedUpdate, RetryOnConflict, OnError. rewrite Hkey.
  change (Steps DefaultRetry) with 5. rewrite ExponentialBackoff_step.
  rewrite (attempt_written DeepEqual cli updateFunc key (mkState obj w [])
             obj1 w1 obj2 w2 obj3 w3 err) by done.
  destruct err as [c|]; [ | done ].
  destruct (Herr c eq_refl) as [Hc Hne']. rewrite Hc.
  rewrite bool_decide_eq_false_2; [ done | congruence ].
Qed.

(** X11: when [updateFunc] fails in the first cycle with
    [wait.ErrWaitTimeout], [GuaranteedUpdate] returns nil although nothing
    has been written: [retry.OnError] takes the error for the timeout of
    its own loop and returns the last conflict it has seen, of which there
    is none. *)
Theorem timeout_of_updateFunc_is_lost obj w key obj1 w1 obj2 w2 :
  ObjectKeyFromObject obj = Ok key →
  Get cli key obj w = (obj1, w1, None) →
  updateFunc obj1 w1 = (obj2, w2, Some ErrWaitTimeout) →
  GuaranteedUpdate DeepEqual cli updateFunc obj w
  = (mkState obj2 w2 [CallGet key None; CallUpdateFunc (Some ErrWaitTimeout)], None).
Proof.
  intros Hkey Hget Hmut.
  unfold GuaranteedUpdate, RetryOnConflict, OnError. rewrite Hkey.
  change (Steps DefaultRetry) with 5. rewrite ExponentialBackoff_step.
  by rewrite (attempt_mutate_error DeepEqual cli updateFunc key (mkState obj w [])
                obj1 w1 obj2 w2 ErrWaitTimeout).
Qed.

(** What one cycle adds to the calls. *)
Lemma attempt_counts key s :
  ∃ a b,
    mutation_calls (st_calls (GuaranteedUpdate_attempt DeepEqual cli updateFunc key s).1)
    = mutation_calls (st_calls s) + a
    ∧ writes (st_calls (GuaranteedUpdate_attempt DeepEqual cli updateFunc key s).1)
      = writes (st_calls s) + b
    ∧ (b ≤ a)%nat ∧ (a ≤ 1)%nat.
Proof.
  unfold GuaranteedUpdate_attempt, mutation_calls, writes.
  destruct (Get cli key (st_obj s) (st_world s)) as [[obj1 w1] [err|]].
  { exists 0, 0. cbn [fst st_calls]. rewrite !List.filter_app, !length_app. simpl. lia. }
  destruct (updateFunc obj1 w1) as [[obj2 w2] [err|]].
  { exists 1, 0. cbn [fst st_calls]. rewrite !List.filter_app, !length_app. simpl. lia. }
  destruct (DeepEqual obj2 obj1).
  { exists 1, 0. cbn [fst st_calls]. rewrite !List.filter_app, !length_app. simpl. lia. }
  destruct (Update cli obj2 w2) as [[obj3 w3] err].
  exists 1, 1. cbn [fst st_calls]. rewrite !List.filter_app, !length_app. simpl. lia.
Qed.

Lemma chain_counts key (rs : list (State World * option error)) :
  ∀ s s' e,
    chain (GuaranteedUpdate_attempt DeepEqual cli updateFunc key) s (rs ++ [(s', e)]) →
    ∃ a b,
      mutation_calls (st_calls s') = mutation_calls (st_calls s) + a
      ∧ writes (st_calls s') = writes (st_calls s) + b
      ∧ (b ≤ a)%nat ∧ (a ≤ Datatypes.S (length rs))%nat.
Proof.
  induction rs as [| r rs IH]; intros s s' e; simpl.
  - intros [Hfn _]. destruct (attempt_counts key s) as (a & b & Ha & Hb & Hba & Ha1).
    rewrite Hfn in Ha, Hb. simpl in Ha, Hb. exists a, b. repeat split; try done; lia.
  - intros [Hfn Hch]. destruct (IH _ _ _ Hch) as (a' & b' & Ha' & Hb' & Hba' & Hlen).
    destruct (attempt_counts key s) as (a & b & Ha & Hb & Hba & Ha1).
    rewrite Hfn in Ha, Hb.
    exists (a + a'), (b + b'). repeat split; lia.
Qed.

(** X12: whatever the client and [updateFunc] do, one [GuaranteedUpdate]
    fetches at most 5 times, calls [updateFunc] at most once per fetch and
    writes at most once per call of [updateFunc]; for an object without
    metadata it calls nothing. *)
Theorem calls_are_bounded obj w :
  let calls := st_calls (GuaranteedUpdate DeepEqual cli updateFunc obj w).1 in
  (writes calls ≤ mutation_calls calls)%nat
  ∧ (mutation_calls calls ≤ fetches calls)%nat
  ∧ (fetches calls ≤ 5)%nat
  ∧ (Meta obj = None → calls = []).
Proof.
  intros calls. subst calls.
  destruct (ObjectKeyFromObject obj) as [key | err] eqn:Hkey.
  - destruct (GuaranteedUpdate_cycles DeepEqual cli updateFunc obj w key Hkey)
      as (retried & s' & e & Hch & _ & Hlen & Hst & _).
    rewrite Hst.
    pose proof (chain_fetches DeepEqual cli updateFunc key retried _ _ _ Hch) as Hf.
    destruct (chain_counts key retried _ _ _ Hch) as (a & b & Ha & Hb & Hba & Hal).
    cbn [st_calls] in Hf, Ha, Hb.
    change (fetches []) with 0 in Hf. change (mutation_calls []) with 0 in Ha.
    change (writes []) with 0 in Hb. change (Steps DefaultRetry) with 5 in Hlen.
    repeat split; try lia.
    intros Hno. unfold ObjectKeyFromObject, Accessor in Hkey. simpl in Hkey.
    by rewrite Hno in Hkey.
  - unfold GuaranteedUpdate. rewrite Hkey. cbn [fst st_calls].
    unfold writes, mutation_calls, fetches. simpl. repeat split; try done; lia.
Qed.

Lemma attempt_error_origin key s c :
  (GuaranteedUpdate_attempt DeepEqual cli updateFunc key s).2 = Some c →
  (∃ o w, (Get cli key o w).2 = Some c)
  ∨ (∃ o w, (updateFunc o w).2 = Some c)
  ∨ (∃ o w, (Update cli o w).2 = Some c).
Proof.
  unfold GuaranteedUpdate_attempt.
  destruct (Get cli key (st_obj s) (st_world s)) as [[obj1 w1] [err|]] eqn:Hget.
  { intros [= ->]. left. exists (st_obj s), (st_world s). by rewrite Hget. }
  destruct (updateFunc obj1 w1) as [[obj2 w2] [err|]] eqn:Hmut.
  { intros [= ->]. right. left. exists obj1, w1. by rewrite Hmut. }
  destruct (DeepEqual obj2 obj1); [ done | ].
  destruct (Update cli obj2 w2) as [[obj3 w3] err] eqn:Hupd.
  simpl. intros ->. right. right. exists obj2, w2. by rewrite Hupd.
Qed.

(** X13: as long as neither the client nor [updateFunc] ever returns
    [wait.ErrWaitTimeout], the error that [GuaranteedUpdate] returns for an
    object with metadata is the one the last cycle ended in, and the state
    it leaves is the one that cycle left. *)
Theorem result_is_that_of_the_last_cycle obj w key :
  (∀ k o w', (Get cli k o w').2 ≠ Some ErrWaitTimeout) →
  (∀ o w', (updateFunc o w').2 ≠ Some ErrWaitTimeout) →
  (∀ o w', (Update cli o w').2 ≠ Some ErrWaitTimeout) →
  ObjectKeyFromObject obj = Ok key →
  ∃ (retried : list (State World * option error)),
    chain (GuaranteedUpdate_attempt DeepEqual cli updateFunc key) (mkState obj w [])
          (retried ++ [GuaranteedUpdate DeepEqual cli updateFunc obj w])
    ∧ Forall (ended_retriable IsConflict) retried.
Proof.
  intros Hget Hmut Hupd Hkey.
  destruct (GuaranteedUpdate_cycles DeepEqual cli updateFunc obj w key Hkey)
    as (retried & s' & e & Hch & Hall & _ & Hst & Hres).
  exists retried. split; [ | done ].
  replace (GuaranteedUpdate DeepEqual cli updateFunc obj w) with (s', e); [ done | ].
  destruct (GuaranteedUpdate DeepEqual cli updateFunc obj w) as [s'' e''].
  simpl in Hst, Hres. subst s''. f_equal.
  destruct e as [c|]; [ | done ].
  destruct (IsConflict c); [ by destruct Hres | ].
  symmetry. apply Hres. intros ->.
  assert (Hlast : (GuaranteedUpdate_attempt DeepEqual cli updateFunc key
                     (match last retried with
                      | Some r => r.1
                      | None => mkState obj w []
                      end)).2 = Some ErrWaitTimeout).
  { clear -Hch. revert Hch. generalize (mkState obj w []).
    induction retried as [| r retried IH]; intros s0; simpl.
    - intros [-> _]. done.
    - intros [_ Hch]. specialize (IH _ Hch).
      destruct retried as [| r' retried']; [ done | ].
      rewrite last_cons_cons.
      destruct (last (r' :: retried')) as [x|] eqn:Hl; [ done | ].
      by apply last_None in Hl. }
  destruct (attempt_error_origin _ _ _ Hlast)
    as [(o & w' & H1) | [(o & w' & H1) | (o & w' & H1)]].
  - by apply Hget in H1.
  - by apply Hmut in H1.
  - by apply Hupd in H1.
Qed.

(** X14: what the caller's object holds besides its key is lost to the
    fetch: with a client whose [Get] does not read the object it is given,
    two objects with the same key lead to the same calls, the same final
    state and the same result. *)
Theorem local_state_is_overwritten obj obj' w key :
  (∀ o o' w', Get cli key o w' = Get cli key o' w') →
  ObjectKeyFromObject obj = Ok key →
  ObjectKeyFromObject obj' = Ok key →
  GuaranteedUpdate DeepEqual cli updateFunc obj w
  = GuaranteedUpdate DeepEqual cli updateFunc obj' w.
Proof.
  intros Hget Hkey Hkey'.
  unfold GuaranteedUpdate, RetryOnConflict, OnError. rewrite Hkey, Hkey'.
  change (Steps DefaultRetry) with 5. rewrite !ExponentialBackoff_step.
  replace (GuaranteedUpdate_attempt DeepEqual cli updateFunc key (mkState obj' w []))
    with (GuaranteedUpdate_attempt DeepEqual cli updateFunc key (mkState obj w [])); [ done | ].
  unfold GuaranteedUpdate_attempt. cbn [st_obj st_world st_calls].
  by rewrite (Hget obj obj' w).
Qed.
End GuaranteedUpdate_more.

Section Contention.
Context {World : Type}.
Variable DeepEqual : RuntimeObject → RuntimeObject → bool.
Variable cli : Client World.
Variable updateFunc : Mutation World.
Variable key : ObjectKey.

Hypothesis fetch_succeeds : ∀ o w, (Get cli key o w).2 = None.
Hypothesis mutation_changes :
  ∀ o w, (updateFunc o w).2 = None ∧ DeepEqual (updateFunc o w).1.1 o = false.
Hypothesis write_conflicts : ∀ o w, ∃ c, (Update cli o w).2 = Some c ∧ IsConflict c = true.

Lemma contended_attempt (s : State World) :
  ∃ c,
    (GuaranteedUpdate_attempt DeepEqual cli updateFunc key s).2 = Some c
    ∧ IsConflict c = true
    ∧ mutation_calls (st_calls (GuaranteedUpdate_attempt DeepEqual cli updateFunc key s).1)
      = Datatypes.S (mutation_calls (st_calls s))
    ∧ writes (st_calls (GuaranteedUpdate_attempt DeepEqual cli updateFunc key s).1)
      = Datatypes.S (writes (st_calls s)).
Proof.
  unfold GuaranteedUpdate_attempt, mutation_calls, writes.
  pose proof (fetch_succeeds (st_obj s) (st_world s)) as Hget.
  destruct (Get cli key (st_obj s) (st_world s)) as [[obj1 w1] err1].
  simpl in Hget. subst err1.
  destruct (mutation_changes obj1 w1) as [Hmut Hne].
  destruct (updateFunc obj1 w1) as [[obj2 w2] err2].
  simpl in Hmut, Hne. subst err2. rewrite Hne.
  destruct (write_conflicts obj2 w2) as (c & Hupd & Hc).
  destruct (Update cli obj2 w2) as [[obj3 w3] err3].
  simpl in Hupd. subst err3. exists c. cbn [fst snd st_calls].
  rewrite !List.filter_app, !length_app. simpl. repeat split; try done; lia.
Qed.

Lemma contended_chain (rs : list (State World * option error)) :
  ∀ s s' e,
    chain (GuaranteedUpdate_attempt DeepEqual cli updateFunc key) s (rs ++ [(s', e)]) →
    (∃ c, e = Some c ∧ IsConflict c = true)
    ∧ mutation_calls (st_calls s') = mutation_calls (st_calls s) + Datatypes.S (length rs)
    ∧ writes (st_calls s') = writes (st_calls s) + Datatypes.S (length rs).
Proof.
  induction rs as [| r rs IH]; intros s s' e; simpl.
  - intros [Hfn _]. destruct (contended_attempt s) as (c & He & Hc & Hm & Hw).
    rewrite Hfn in He, Hm, Hw. simpl in He, Hm, Hw.
    split; [ by exists c | lia ].
  - intros [Hfn Hch]. destruct (IH _ _ _ Hch) as (Hlast & Hm' & Hw').
    destruct (contended_attempt s) as (c & _ & _ & Hm & Hw).
    rewrite Hfn in Hm, Hw. split; [ done | lia ].
Qed.

(** X15: when every fetch succeeds, every call of [updateFunc] succeeds
    and changes the object, and every write is refused with a conflict,
    [GuaranteedUpdate] gives up after exactly 5 fetches, 5 calls of
    [updateFunc] and 5 writes, and returns a conflict error. *)
Theorem persistent_conflict_uses_five_cycles obj w :
  ObjectKeyFromObject obj = Ok key →
  (∃ c, (GuaranteedUpdate DeepEqual cli updateFunc obj w).2 = Some c
        ∧ IsConflict c = true)
  ∧ fetches (st_calls (GuaranteedUpdate DeepEqual cli updateFunc obj w).1) = 5
  ∧ mutation_calls (st_calls (GuaranteedUpdate DeepEqual cli updateFunc obj w).1) = 5
  ∧ writes (st_calls (GuaranteedUpdate DeepEqual cli updateFunc obj w).1) = 5.
Proof.
  intros Hkey.
  destruct (GuaranteedUpdate_cycles DeepEqual cli updateFunc obj w key Hkey)
    as (retried & s' & e & Hch & _ & _ & Hst & Hres).
  destruct (contended_chain retried _ _ _ Hch) as ((c & -> & Hc) & Hm & Hw).
  pose proof (chain_fetches DeepEqual cli updateFunc key retried _ _ _ Hch) as Hf.
  rewrite Hc in Hres. destruct Hres as [Hlen Hret].
  change (Steps DefaultRetry) with 5 in Hlen.
  rewrite Hst. cbn [st_calls] in Hf, Hm, Hw.
  change (fetches []) with 0 in Hf. change (mutation_calls []) with 0 in Hm.
  change (writes []) with 0 in Hw.
  split; [ by exists c | lia ].
Qed.
End Contention.

(** ** Resources *)

Section Resources_properties.
Context `{Printer}.

(** X16: for a storage limit of [i] bytes, [i] not negative,
    [TiKVCapacity] prints gigabytes only when [i] is a whole number of
    GiB, and then exactly that number; otherwise it prints the number of
    whole MiB in [i], so less than one MiB is left out and anything under
    one MiB is printed as 0; nothing is logged. *)
Theorem TiKVCapacity_units (limits : gmap string Quantity) (q0 : Quantity) (i : Z) :
  limits !! ResourceStorage = Some q0 →
  AsInt64 q0 = Some i →
  (0 ≤ i)%Z →
  ∃ n : Z,
    ((TiKVCapacity (Some limits) = (Sprintf "%dGB" [a_int n], [])
      ∧ (n * GiByte = i)%Z)
     ∨ (TiKVCapacity (Some limits) = (Sprintf "%dMB" [a_int n], [])
        ∧ (n * MiByte ≤ i < (n + 1) * MiByte)%Z
        ∧ (∀ k : Z, k * GiByte ≠ i)%Z))
    ∧ ((0 < i < MiByte)%Z → TiKVCapacity (Some limits) = (Sprintf "%dMB" [a_int 0], [])).
Proof.
  intros Hq Hi Hpos. unfold TiKVCapacity. rewrite Hq, Hi.
  assert (HG : (0 < GiByte)%Z) by done.
  assert (HM : (0 < MiByte)%Z) by done.
  rewrite Z.rem_mod_nonneg, !Z.quot_div_nonneg by lia.
  destruct (i `mod` GiByte =? 0)%Z eqn:Hrem.
  - apply Z.eqb_eq in Hrem. exists (i `div` GiByte)%Z. split.
    + left. split; [ done | ].
      pose proof (Z.div_mod i GiByte ltac:(lia)). lia.
    + intros [Hlo Hhi]. unfold GiByte, MiByte in *.
      rewrite Z.mod_small in Hrem by lia. lia.
  - apply Z.eqb_neq in Hrem. exists (i `div` MiByte)%Z. split.
    + right. split; [ done | ]. split.
      * pose proof (Z.div_mod i MiByte ltac:(lia)).
        pose proof (Z.mod_pos_bound i MiByte HM). lia.
      * intros k Hk. apply Hrem. rewrite <- Hk. apply Z.mod_mul. lia.
    + intros [Hlo Hhi]. by rewrite Z.div_small by lia.
Qed.

(** X17: [ParseStorageRequest] fails exactly on a map that is not nil and
    has no storage entry; from a map with a storage entry it keeps that
    entry alone, as a request, and sets no limit. *)
Theorem ParseStorageRequest_keeps_storage_only (req : ResourceList) :
  ((ParseStorageRequest req).2 = None
   ↔ req = None ∨ ∃ l, req = Some l ∧ is_Some (l !! ResourceStorage))
  ∧ (∀ l q0, req = Some l → l !! ResourceStorage = Some q0 →
       Limits (ParseStorageRequest req).1 = None
       ∧ ∃ r, Requests (ParseStorageRequest req).1 = Some r
              ∧ r !! ResourceStorage = Some q0
              ∧ ∀ name, name ≠ ResourceStorage → r !! name = None).
Proof.
  unfold ParseStorageRequest. split.
  - destruct req as [l|]; [ | naive_solver ].
    destruct (l !! ResourceStorage) as [q0|] eqn:Hq; simpl.
    + split; [ | done ]. intros _. right. exists l. by rewrite Hq.
    + split; [ done | ].
      intros [? | (l' & [= <-] & Hsome)]; [ done | ].
      rewrite Hq in Hsome. by destruct Hsome.
  - intros l q0 -> Hq. rewrite Hq. simpl. split; [ done | ].
    exists {[ ResourceStorage := q0 ]}. split; [ done | ].
    split; [ apply lookup_singleton_eq | ].
    intros name Hname. by apply lookup_singleton_ne.
Qed.

(** X18: [ContainerResource] removes the storage entry from the limits and
    from the requests, keeps every other entry as it is, keeps a nil map
    nil, and applied twice does what it does once. *)
Theorem ContainerResource_strips_storage (req : ResourceRequirements) :
  (∀ l, Limits (ContainerResource req) = Some l → l !! ResourceStorage = None)
  ∧ (∀ r, Requests (ContainerResource req) = Some r → r !! ResourceStorage = None)
  ∧ (∀ name, name ≠ ResourceStorage →
       (Limits (ContainerResource req) ≫= (.!! name)) = (Limits req ≫= (.!! name))
       ∧ (Requests (ContainerResource req) ≫= (.!! name)) = (Requests req ≫= (.!! name)))
  ∧ (Limits (ContainerResource req) = None ↔ Limits req = None)
  ∧ (Requests (ContainerResource req) = None ↔ Requests req = None)
  ∧ ContainerResource (ContainerResource req) = ContainerResource req.
Proof.
  destruct req as [[l|] [r|]]; unfold ContainerResource; simpl;
    repeat split; try done;
    try (intros ? [= <-]; apply lookup_delete_eq);
    try (intros; by rewrite lookup_delete_ne);
    by rewrite ?delete_delete_eq.
Qed.

(** X19: the requirements that [ParseStorageRequest] returns hold nothing
    for a container: after [ContainerResource] no resource is left in
    them; and the limits that [ContainerResource] returns always read as
    capacity 0. *)
Theorem storage_is_not_for_containers (req : ResourceList) (rr : ResourceRequirements) :
  (∀ name,
     (Limits (ContainerResource (ParseStorageRequest req).1) ≫= (.!! name)) = None
     ∧ (Requests (ContainerResource (ParseStorageRequest req).1) ≫= (.!! name)) = None)
  ∧ TiKVCapacity (Limits (ContainerResource rr)) = ("0", []).
Proof.
  split.
  - intros name. unfold ParseStorageRequest, ContainerResource.
    destruct req as [l|]; [ | done ].
    destruct (l !! ResourceStorage) as [q0|]; simpl; [ | done ].
    split; [ done | ]. by rewrite delete_singleton_eq.
  - unfold ContainerResource, TiKVCapacity.
    destruct rr as [[l|] [r|]]; simpl; try done; by rewrite lookup_delete_eq.
Qed.
End Resources_properties.

(** ** String maps and ConfigMap names *)

(** X20: on a map that is not nil [setIfNotEmpty] returns without a panic;
    afterwards the key reads as the value when the value is not empty and
    as before otherwise, every other key reads as before, and no key is
    lost; on a nil map it panics exactly when the value is not empty. *)
Theorem setIfNotEmpty_sets (m : gmap string string) (key value : string) :
  (∃ m',
     setIfNotEmpty (Some m) key value = (Some m', Returned)
     ∧ m' !! key = (if bool_decide (value = "") then m !! key else Some value)
     ∧ (∀ k, k ≠ key → m' !! k = m !! k)
     ∧ dom m ⊆ dom m')
  ∧ ((setIfNotEmpty None key value).2 = Panicked ↔ value ≠ "").
Proof.
  unfold setIfNotEmpty. split.
  - case_bool_decide as Hne.
    + exists (<[key := value]> m). split; [ done | ].
      rewrite bool_decide_eq_false_2 by done.
      split; [ apply lookup_insert_eq | ].
      split; [ intros k Hk; by apply lookup_insert_ne | ].
      rewrite dom_insert. set_solver.
    + exists m. subst value. by rewrite bool_decide_eq_true_2.
  - case_bool_decide; simpl; split; done.
Qed.

Lemma append_empty_r (s : string) : s +:+ "" = s.
Proof.
  induction s as [| c s IH]; [ done | ].
  change (String c (s +:+ "") = String c s). by f_equal.
Qed.

Section ConfigMapNames_properties.
Context `{Printer}.
Variable MemberType_String : string → string.

(** X21: [MemberConfigMapName] is the cluster-member name alone when the
    cluster has no annotation for the sha of that name, or an empty one,
    and the name, a dash and the sha otherwise. *)
Theorem MemberConfigMapName_suffix (tc : TikvCluster) (member : string) :
  let nameKey := Sprintf "%s-%s" [a_string (ObjectMeta.Name (tc_ObjectMeta tc));
                                  a_string (MemberType_String member)] in
  let annotation := Sprintf "tikv.org/%s.%s.sha"
                            [a_string (MemberType_String member); a_string nameKey] in
  MemberConfigMapName MemberType_String tc member
  = match ObjectMeta.Annotations (tc_ObjectMeta tc) !! annotation with
    | None | Some "" => nameKey
    | Some sha => nameKey +:+ "-" +:+ sha
    end.
Proof.
  intros nameKey annotation. unfold MemberConfigMapName, getConfigMapSuffix.
  fold nameKey. fold annotation.
  destruct (ObjectMeta.Annotations (tc_ObjectMeta tc) !! annotation) as [[| c sha]|];
    simpl; by rewrite ?append_empty_r.
Qed.
End ConfigMapNames_properties.

(** ** Request tracker *)

Lemma wrap_int_small (z : Z) : (- 2 ^ 63 ≤ z < 2 ^ 63)%Z → wrap_int z = z.
Proof. intros Hz. unfold wrap_int. rewrite Z.mod_small; lia. Qed.

Lemma requests_after_incs (k : nat) (rt : RequestTracker) :
  (- 2 ^ 63 ≤ requests rt)%Z → (requests rt + Z.of_nat k < 2 ^ 63)%Z →
  Nat.iter k Inc rt
  = mkRequestTracker (requests rt + Z.of_nat k) (rt_err rt) (after rt).
Proof.
  induction k as [| k IH]; intros Hlo Hhi.
  - simpl. rewrite Z.add_0_r. by destruct rt.
  - rewrite Nat.iter_succ, IH by lia. unfold Inc. cbn [requests rt_err after].
    rewrite wrap_int_small by lia. f_equal. lia.
Qed.

(** X22: a tracker set to fail with an error after [n] requests, counting
    from zero, is ready to fail after [k] calls of [Inc] exactly when
    [n ≤ k], and [GetRequests] then reads [k]. *)
Theorem ErrorReady_after_enough_requests
    (rt : RequestTracker) (err : error) (n : Z) (k : nat) :
  (Z.of_nat k < 2 ^ 63)%Z →
  let armed := SetAfter n (SetError (Some err) (SetRequests 0 rt)) in
  (ErrorReady (Nat.iter k Inc armed) = true ↔ (n ≤ Z.of_nat k)%Z)
  ∧ GetRequests (Nat.iter k Inc armed) = Z.of_nat k
  ∧ GetError (Nat.iter k Inc armed) = Some err.
Proof.
  intros Hk armed. subst armed.
  rewrite requests_after_incs by (simpl; lia).
  unfold ErrorReady, GetRequests, GetError. simpl.
  repeat split; try done.
  - intros Hready. by apply Z.leb_le in Hready.
  - intros Hle. by apply Z.leb_le.
Qed.

(** X23: [Reset] clears the error and the threshold but not the count of
    requests: right after it the tracker is not ready, [GetRequests] reads
    as before, and setting an error alone makes the tracker ready as soon
    as the count is not negative; and [Inc] at the largest [int] wraps to
    the smallest. *)
Theorem Reset_keeps_the_count (rt : RequestTracker) :
  ErrorReady (Reset rt) = false
  ∧ GetRequests (Reset rt) = GetRequests rt
  ∧ (∀ err, ErrorReady (SetError (Some err) (Reset rt)) = (0 <=? GetRequests rt)%Z)
  ∧ (GetRequests rt = 2 ^ 63 - 1 → GetRequests (Inc rt) = - 2 ^ 63)%Z.
Proof.
  repeat split; try done.
  unfold GetRequests, Inc. simpl. intros ->. done.
Qed.

(** ** Clones *)

Section Clones_properties.
Context `{Printer}.
Variable Scheme_ : Scheme.

(** X24: [EmptyClone] succeeds exactly when the object has metadata, the
    scheme knows one kind for it, no more and no less, and the scheme
    builds for that kind an instance that has metadata. *)
Theorem EmptyClone_succeeds_iff (obj : RuntimeObject) :
  (∃ clone, EmptyClone Scheme_ obj = Ok clone)
  ↔ is_Some (Meta obj)
    ∧ ∃ gvk inst,
        ObjectKinds Scheme_ obj = Ok [gvk]
        ∧ Scheme_New Scheme_ gvk = Ok inst
        ∧ is_Some (Meta inst).
Proof.
  unfold EmptyClone, InferObjectKind. split.
  - intros [clone Hclone].
    destruct (Meta obj) as [meta|]; [ | done ].
    destruct (ObjectKinds Scheme_ obj) as [[| gvk [| gvk' gvks]] | err]; try done.
    destruct (Scheme_New Scheme_ gvk) as [inst | err] eqn:Hnew; [ | done ].
    destruct (Meta inst) as [instMeta|] eqn:Hinst; [ | done ].
    split; [ done | ]. exists gvk, inst. by rewrite Hinst.
  - intros [[meta ->] (gvk & inst & -> & -> & [instMeta ->])]. eauto.
Qed.

(** X25: a clone that [EmptyClone] returns has the name and the namespace
    of the object, so the store client and the work queue address both in
    the same way; its kind, its content and the rest of its metadata are
    those of the instance that the scheme built. *)
Theorem EmptyClone_keeps_the_identity (obj clone : RuntimeObject) :
  EmptyClone Scheme_ obj = Ok clone →
  ObjectKeyFromObject clone = ObjectKeyFromObject obj
  ∧ DeletionHandlingMetaNamespaceKeyFunc (Object clone)
    = DeletionHandlingMetaNamespaceKeyFunc (Object obj)
  ∧ ∃ gvk inst meta instMeta cloneMeta,
      ObjectKinds Scheme_ obj = Ok [gvk]
      ∧ Scheme_New Scheme_ gvk = Ok inst
      ∧ Meta obj = Some meta ∧ Meta inst = Some instMeta ∧ Meta clone = Some cloneMeta
      ∧ ObjectMeta.Name cloneMeta = ObjectMeta.Name meta
      ∧ ObjectMeta.Namespace cloneMeta = ObjectMeta.Namespace meta
      ∧ ObjectKind clone = ObjectKind inst
      ∧ Content clone = Content inst
      ∧ ObjectMeta.UID cloneMeta = ObjectMeta.UID instMeta
      ∧ ObjectMeta.ResourceVersion cloneMeta = ObjectMeta.ResourceVersion instMeta
      ∧ ObjectMeta.Labels cloneMeta = ObjectMeta.Labels instMeta
      ∧ ObjectMeta.Annotations cloneMeta = ObjectMeta.Annotations instMeta
      ∧ ObjectMeta.OwnerReferences cloneMeta = ObjectMeta.OwnerReferences instMeta.
Proof.
  unfold EmptyClone, InferObjectKind.
  destruct (Meta obj) as [meta|] eqn:Hmeta; [ | done ].
  destruct (ObjectKinds Scheme_ obj) as [[| gvk [| gvk' gvks]] | err]; try done.
  destruct (Scheme_New Scheme_ gvk) as [inst | err] eqn:Hnew; [ | done ].
  destruct (Meta inst) as [instMeta|] eqn:Hinst; [ | done ].
  intros [= <-].
  split; [ | split ].
  - unfold ObjectKeyFromObject, Accessor. simpl. by rewrite Hmeta.
  - rewrite (key_of_live_object (ObjectMeta.Namespace meta) (ObjectMeta.Name meta)
               (Object obj)) by (by exists obj, meta).
    apply key_of_live_object. by eexists _, _.
  - exists gvk, inst, meta, instMeta. eexists. by repeat split.
Qed.
End Clones_properties.

(** * The further properties on sample inputs *)

Lemma owner_reference_resolves_witness :
  GetControllerOf (tikv_set_meta tikv_labels "11")
  = Some (GetOwnerRef tikv_org_v1alpha1 basic_tc)
  ∧ @ParseGroupVersion verbatim
      (OwnerReference.APIVersion (GetOwnerRef tikv_org_v1alpha1 basic_tc))
    = Ok tikv_org_v1alpha1.
Proof.
  apply (@owner_reference_resolves verbatim tikv_org_v1alpha1 basic_tc
           (tikv_set_meta tikv_labels "11") []); reflexivity.
Defined.

Lemma owned_object_routes_to_cluster_witness :
  deliver (@WatchForController_handler verbatim cluster_lister (Some managed_by_filter))
          (OnUpdate (Opaque "old") (Object (tikv_set tikv_labels "12" "replicas=5")))
          no_events
  = (mkEnv ["default/basic"] [] [], Returned).
Proof.
  apply (@owned_object_routes_to_cluster verbatim tikv_org_v1alpha1 cluster_lister
           (Some managed_by_filter) basic_tc
           (OnUpdate (Opaque "old") (Object (tikv_set tikv_labels "12" "replicas=5")))
           (tikv_set_meta tikv_labels "12") [] no_events);
    try reflexivity.
  intros filter [= <-]. vm_compute. reflexivity.
Defined.

Lemma equal_keys_name_one_object_witness :
  ObjectMeta.Namespace (tikv_set_meta tikv_labels "11")
  = ObjectMeta.Namespace (tikv_set_meta component_label "12")
  ∧ ObjectMeta.Name (tikv_set_meta tikv_labels "11")
    = ObjectMeta.Name (tikv_set_meta component_label "12").
Proof.
  apply (@equal_keys_name_one_object verbatim
           (tikv_set tikv_labels "11" "replicas=3")
           (tikv_set component_label "12" "replicas=5")
           (tikv_set_meta tikv_labels "11") (tikv_set_meta component_label "12"));
    reflexivity.
Defined.

Lemma indirect_mode_returns_witness :
  ∃ w',
    deliver_all (@WatchForController_handler verbatim cluster_lister None)
                tikv_set_events no_events = (w', Returned)
    ∧ q no_events `prefix_of` q w'
    ∧ handled no_events `prefix_of` handled w'
    ∧ klogV4 no_events `prefix_of` klogV4 w'
    ∧ (length (q w') + length (handled w') + length (klogV4 w')
       ≤ length (q no_events) + length (handled no_events) + length (klogV4 no_events)
         + length tikv_set_events)%nat.
Proof.
  apply (@indirect_mode_returns verbatim cluster_lister None tikv_set_events no_events).
  intros ns name. unfold cluster_lister.
  destruct (bool_decide (ns = "default") && bool_decide (name = "basic")); discriminate.
Defined.

Lemma object_without_controller_is_dropped_witness :
  deliver (@WatchForController_handler verbatim cluster_lister None)
          (OnAdd (Object tls_secret)) no_events
  = (no_events, Returned).
Proof.
  apply (@object_without_controller_is_dropped verbatim cluster_lister None
           (OnAdd (Object tls_secret)) owned_secret_meta no_events).
  - reflexivity.
  - constructor; [ discriminate | constructor ].
Defined.

Lemma unparsable_reference_is_reported_witness :
  deliver (@WatchForController_handler verbatim cluster_lister None)
          (OnAdd (Object pd_set)) no_events
  = (mkEnv [] [errorString "cannot parse group version for the controller %v of %s/%s"] [],
     Returned).
Proof.
  apply (@unparsable_reference_is_reported verbatim cluster_lister None
           (OnAdd (Object pd_set)) garbled_meta garbled_ref no_events).
  - reflexivity.
  - intros filter [=].
  - reflexivity.
  - simpl. lia.
Defined.

Lemma failed_lookup_adds_no_key_witness :
  deliver (@WatchForController_handler verbatim empty_lister None)
          (OnAdd (Object (tikv_set tikv_labels "11" "replicas=3"))) no_events
  = (mkEnv [] [] ["controller %s/%s of %s/%s not found, ignore"], Returned).
Proof.
  apply (@failed_lookup_adds_no_key verbatim empty_lister None
           (OnAdd (Object (tikv_set tikv_labels "11" "replicas=3")))
           (tikv_set_meta tikv_labels "11") cluster_ref
           (GroupVersion.mk "tikv.org" "v1alpha1") None
           (StatusError StatusReasonNotFound "tikvcluster not found") no_events).
  - reflexivity.
  - intros filter [=].
  - reflexivity.
  - reflexivity.
  - reflexivity.
Defined.

Lemma changed_object_is_written_once_witness :
  GuaranteedUpdate same_object store_cli (set_content "pd.replicas=5") basic_cluster
                   (mkStore basic_cluster 0 0)
  = (mkState (with_content "pd.replicas=5" basic_cluster)
             (mkStore (with_content "pd.replicas=5" basic_cluster) 0 1)
             [CallGet basic_key None; CallUpdateFunc None;
              CallUpdate (with_content "pd.replicas=5" basic_cluster) None],
     None).
Proof.
  apply (changed_object_is_written_once same_object store_cli (set_content "pd.replicas=5")
           basic_cluster (mkStore basic_cluster 0 0) basic_key
           basic_cluster (mkStore basic_cluster 0 0)
           (with_content "pd.replicas=5" basic_cluster) (mkStore basic_cluster 0 1)
           (with_content "pd.replicas=5" basic_cluster)
           (mkStore (with_content "pd.replicas=5" basic_cluster) 0 1) None);
    try reflexivity.
  intros c [=].
Defined.

Lemma timeout_of_updateFunc_is_lost_witness :
  GuaranteedUpdate same_object store_cli (failing ErrWaitTimeout) basic_cluster
                   (mkStore basic_cluster 0 0)
  = (mkState basic_cluster (mkStore basic_cluster 0 1)
             [CallGet basic_key None; CallUpdateFunc (Some ErrWaitTimeout)], None).
Proof.
  apply (timeout_of_updateFunc_is_lost same_object store_cli (failing ErrWaitTimeout)
           basic_cluster (mkStore basic_cluster 0 0) basic_key
           basic_cluster (mkStore basic_cluster 0 0)
           basic_cluster (mkStore basic_cluster 0 1));
    reflexivity.
Defined.

Lemma result_is_that_of_the_last_cycle_witness :
  ∃ retried,
    chain (GuaranteedUpdate_attempt same_object store_cli (set_content "pd.replicas=5")
                                    basic_key)
          (mkState basic_cluster (mkStore basic_cluster 1 0) [])
          (retried ++ [GuaranteedUpdate same_object store_cli (set_content "pd.replicas=5")
                                        basic_cluster (mkStore basic_cluster 1 0)])
    ∧ Forall (ended_retriable IsConflict) retried.
Proof.
  apply (result_is_that_of_the_last_cycle same_object store_cli
           (set_content "pd.replicas=5") basic_cluster (mkStore basic_cluster 1 0)
           basic_key).
  - intros k o w'. simpl. discriminate.
  - intros o w'. simpl. discriminate.
  - intros o w'. simpl. destruct (conflicts_left w'); simpl; discriminate.
  - reflexivity.
Defined.

Lemma local_state_is_overwritten_witness :
  GuaranteedUpdate same_object store_cli (set_content "pd.replicas=5") basic_cluster
                   (mkStore basic_cluster 0 0)
  = GuaranteedUpdate same_object store_cli (set_content "pd.replicas=5")
                     (with_content "edited by the caller" basic_cluster)
                     (mkStore basic_cluster 0 0).
Proof.
  apply (local_state_is_overwritten same_object store_cli (set_content "pd.replicas=5")
           basic_cluster (with_content "edited by the caller" basic_cluster)
           (mkStore basic_cluster 0 0) basic_key);
    reflexivity.
Defined.

Lemma persistent_conflict_uses_five_cycles_witness :
  (∃ c, (GuaranteedUpdate same_object contended_cli mark_content basic_cluster
                          (mkStore basic_cluster 0 0)).2 = Some c
        ∧ IsConflict c = true)
  ∧ fetches (st_calls (GuaranteedUpdate same_object contended_cli mark_content
                         basic_cluster (mkStore basic_cluster 0 0)).1) = 5
  ∧ mutation_calls (st_calls (GuaranteedUpdate same_object contended_cli mark_content
                                basic_cluster (mkStore basic_cluster 0 0)).1) = 5
  ∧ writes (st_calls (GuaranteedUpdate same_object contended_cli mark_content
                        basic_cluster (mkStore basic_cluster 0 0)).1) = 5.
Proof.
  apply (persistent_conflict_uses_five_cycles same_object contended_cli mark_content
           basic_key).
  - intros o w. reflexivity.
  - intros o w. split; [ reflexivity | ].
    apply bool_decide_eq_false_2. intros Heq.
    apply (f_equal Content) in Heq. apply (f_equal String.length) in Heq.
    simpl in Heq. lia.
  - intros o w. exists conflict. split; reflexivity.
  - reflexivity.
Defined.

Lemma TiKVCapacity_units_witness :
  ∃ n : Z,
    ((@TiKVCapacity verbatim (Some {[ ResourceStorage := GiB_and_a_half ]})
      = (@Sprintf verbatim "%dGB" [a_int n], [])
      ∧ (n * GiByte = 1610612736)%Z)
     ∨ (@TiKVCapacity verbatim (Some {[ ResourceStorage := GiB_and_a_half ]})
        = (@Sprintf verbatim "%dMB" [a_int n], [])
        ∧ (n * MiByte ≤ 1610612736 < (n + 1) * MiByte)%Z
        ∧ (∀ k : Z, k * GiByte ≠ 1610612736)%Z))
    ∧ ((0 < 1610612736 < MiByte)%Z →
       @TiKVCapacity verbatim (Some {[ ResourceStorage := GiB_and_a_half ]})
       = (@Sprintf verbatim "%dMB" [a_int 0], [])).
Proof.
  apply (@TiKVCapacity_units verbatim {[ ResourceStorage := GiB_and_a_half ]}
           GiB_and_a_half 1610612736).
  - vm_compute. reflexivity.
  - reflexivity.
  - lia.
Defined.

Lemma ErrorReady_after_enough_requests_witness :
  let armed := SetAfter 3 (SetError (Some conflict)
                             (SetRequests 0 (mkRequestTracker 7 None 0))) in
  (ErrorReady (Nat.iter 3 Inc armed) = true ↔ (3 ≤ Z.of_nat 3)%Z)
  ∧ GetRequests (Nat.iter 3 Inc armed) = Z.of_nat 3
  ∧ GetError (Nat.iter 3 Inc armed) = Some conflict.
Proof.
  apply (ErrorReady_after_enough_requests (mkRequestTracker 7 None 0) conflict 3 3).
  reflexivity.
Defined.

Lemma EmptyClone_keeps_the_identity_witness :
  ObjectKeyFromObject basic_clone = ObjectKeyFromObject basic_cluster
  ∧ @DeletionHandlingMetaNamespaceKeyFunc verbatim (Object basic_clone)
    = @DeletionHandlingMetaNamespaceKeyFunc verbatim (Object basic_cluster)
  ∧ ∃ gvk inst meta instMeta cloneMeta,
      ObjectKinds tikv_scheme basic_cluster = Ok [gvk]
      ∧ Scheme_New tikv_scheme gvk = Ok inst
      ∧ Meta basic_cluster = Some meta ∧ Meta inst = Some instMeta
      ∧ Meta basic_clone = Some cloneMeta
      ∧ ObjectMeta.Name cloneMeta = ObjectMeta.Name meta
      ∧ ObjectMeta.Namespace cloneMeta = ObjectMeta.Namespace meta
      ∧ ObjectKind basic_clone = ObjectKind inst
      ∧ Content basic_clone = Content inst
      ∧ ObjectMeta.UID cloneMeta = ObjectMeta.UID instMeta
      ∧ ObjectMeta.ResourceVersion cloneMeta = ObjectMeta.ResourceVersion instMeta
      ∧ ObjectMeta.Labels cloneMeta = ObjectMeta.Labels instMeta
      ∧ ObjectMeta.Annotations cloneMeta = ObjectMeta.Annotations instMeta
      ∧ ObjectMeta.OwnerReferences cloneMeta = ObjectMeta.OwnerReferences instMeta.
Proof.
  apply (@EmptyClone_keeps_the_identity verbatim tikv_scheme basic_cluster basic_clone).
  vm_compute. reflexivity.
Defined.

(** * Member names *)

Lemma append_cons (c : ascii) (s t : string) : String c s +:+ t = String c (s +:+ t).
Proof. reflexivity. Qed.

Lemma append_assoc (s t u : string) : (s +:+ t) +:+ u = s +:+ (t +:+ u).
Proof.
  induction s as [| c s IH]; [ done | ]. rewrite !append_cons. by f_equal.
Qed.

Lemma append_cancel_r (s s' t : string) : s +:+ t = s' +:+ t → s = s'.
Proof.
  revert s'. induction s as [| c s IH]; intros [| c' s'] Heq.
  - done.
  - apply (f_equal String.length) in Heq. rewrite !length_append in Heq.
    simpl in Heq. lia.
  - apply (f_equal String.length) in Heq. rewrite !length_append in Heq.
    simpl in Heq. lia.
  - rewrite !append_cons in Heq. injection Heq as -> Heq. f_equal. by apply IH.
Qed.

Section MemberNames_properties.
Context `{Printer}.
Hypothesis fmt_renders_strings : renders_strings.

Lemma name_with_suffix (suffix clusterName : string) :
  Count suffix "%" = 0 →
  Sprintf (String "%" (String "s" suffix)) [a_string clusterName] = clusterName +:+ suffix.
Proof. intros Hsuffix. by apply (fmt_renders_strings suffix clusterName). Qed.

(** X26: with a printer that prints a string operand for [%s] and text as
    it is, each of the fourteen member-name functions gives different
    names to different clusters. *)
Theorem member_names_tell_clusters_apart :
  Forall (λ f : string → string, ∀ c c', f c = f c' → c = c')
         [PDMemberName; PDPeerMemberName; TiKVMemberName; TiKVPeerMemberName;
          TiFlashMemberName; TiCDCMemberName; TiFlashPeerMemberName;
          TiCDCPeerMemberName; TiDBMemberName; TiDBPeerMemberName; PumpMemberName;
          TiDBInitializerMemberName; PumpPeerMemberName; DiscoveryMemberName].
Proof.
  unfold PDMemberName, PDPeerMemberName, TiKVMemberName, TiKVPeerMemberName,
    TiFlashMemberName, TiCDCMemberName, TiFlashPeerMemberName, TiCDCPeerMemberName,
    TiDBMemberName, TiDBPeerMemberName, PumpMemberName, TiDBInitializerMemberName,
    PumpPeerMemberName, DiscoveryMemberName.
  repeat (constructor;
          [ intros c c'; rewrite !name_with_suffix by reflexivity;
            apply append_cancel_r | ]).
  constructor.
Qed.

(** X27: with such a printer, the peer name of PD, TiKV, TiFlash, TiCDC
    and TiDB is the member name followed by "-peer", while pump has one
    name for both; and the TiDB names are the TiKV names. *)
Theorem peer_names_extend_member_names (c : string) :
  PDPeerMemberName c = PDMemberName c +:+ "-peer"
  ∧ TiKVPeerMemberName c = TiKVMemberName c +:+ "-peer"
  ∧ TiFlashPeerMemberName c = TiFlashMemberName c +:+ "-peer"
  ∧ TiCDCPeerMemberName c = TiCDCMemberName c +:+ "-peer"
  ∧ TiDBPeerMemberName c = TiDBMemberName c +:+ "-peer"
  ∧ PumpPeerMemberName c = PumpMemberName c
  ∧ TiDBMemberName c = TiKVMemberName c
  ∧ TiDBPeerMemberName c = TiKVPeerMemberName c.
Proof.
  unfold PDPeerMemberName, PDMemberName, TiKVPeerMemberName, TiKVMemberName,
    TiFlashPeerMemberName, TiFlashMemberName, TiCDCPeerMemberName, TiCDCMemberName,
    TiDBPeerMemberName, TiDBMemberName, PumpPeerMemberName, PumpMemberName.
  rewrite !name_with_suffix by reflexivity.
  rewrite !append_assoc. by repeat split.
Qed.
End MemberNames_properties.

Lemma render_text (suffix : string) : Count suffix "%" = 0 → render suffix [] = suffix.
Proof.
  induction suffix as [| c suffix IH]; [ done | ].
  cbn [Count]. destruct (Ascii.eqb c "%") eqn:Hc; [ discriminate | ].
  intros Hsuffix.
  assert (Hstep : render (String c suffix) [] = String c (render suffix [])).
  { destruct c as [[] [] [] [] [] [] [] []]; try reflexivity. discriminate Hc. }
  rewrite Hstep. f_equal. by apply IH.
Qed.

Lemma text_printer_renders_strings : @renders_strings text_printer.
Proof.
  intros suffix name Hsuffix. unfold Sprintf, doPrintf, text_printer.
  cbn [fst]. change ("%s" +:+ suffix) with (String "%" (String "s" suffix)).
  cbn [render]. by rewrite render_text.
Qed.

Lemma member_names_tell_clusters_apart_witness :
  Forall (λ f : string → string, ∀ c c', f c = f c' → c = c')
         [@PDMemberName text_printer; @PDPeerMemberName text_printer;
          @TiKVMemberName text_printer; @TiKVPeerMemberName text_printer;
          @TiFlashMemberName text_printer; @TiCDCMemberName text_printer;
          @TiFlashPeerMemberName text_printer; @TiCDCPeerMemberName text_printer;
          @TiDBMemberName text_printer; @TiDBPeerMemberName text_printer;
          @PumpMemberName text_printer; @TiDBInitializerMemberName text_printer;
          @PumpPeerMemberName text_printer; @DiscoveryMemberName text_printer].
Proof.
  exact (@member_names_tell_clusters_apart text_printer text_printer_renders_strings).
Defined.

Lemma peer_names_extend_member_names_witness :
  @PDPeerMemberName text_printer "basic" = "basic-pd-peer"
  ∧ @TiKVPeerMemberName text_printer "basic" = "basic-tikv-peer"
  ∧ @TiFlashPeerMemberName text_printer "basic" = "basic-tiflash-peer"
  ∧ @TiCDCPeerMemberName text_printer "basic" = "basic-ticdc-peer"
  ∧ @TiDBPeerMemberName text_printer "basic" = "basic-tikv-peer"
  ∧ @PumpPeerMemberName text_printer "basic" = "basic-pump"
  ∧ @TiDBMemberName text_printer "basic" = "basic-tikv"
  ∧ @TiDBPeerMemberName text_printer "basic" = "basic-tikv-peer".
Proof.
  exact (@peer_names_extend_member_names text_printer text_printer_renders_strings "basic").
Defined.

(** ** Prometheus annotations *)

Section Annotations_properties.
Context `{Printer}.
Hypothesis fmt_renders_strings : renders_strings.

Lemma additional_key (name : string) :
  Sprintf "%s.prometheus.io/port" [a_string name] = name +:+ ".prometheus.io/port".
Proof. by apply (fmt_renders_strings ".prometheus.io/port" name). Qed.

Lemma additional_key_is_new (name : string) :
  name +:+ ".prometheus.io/port" ≠ "prometheus.io/scrape"
  ∧ name +:+ ".prometheus.io/port" ≠ "prometheus.io/path"
  ∧ name +:+ ".prometheus.io/port" ≠ "prometheus.io/port".
Proof.
  repeat split; intros Heq; pose proof (f_equal String.length Heq) as Hlen;
    rewrite length_append in Hlen; simpl in Hlen; try lia.
  destruct name as [| c [| c' name]]; simpl in Hlen; try lia.
  rewrite append_cons in Heq. discriminate Heq.
Qed.

(** X29: with a printer that prints a string operand for [%s] and text as
    it is, the annotation of [AnnAdditionalProm] is none of the three of
    [AnnProm], whatever the name: the two maps share no key, and merged
    they hold the three standard annotations with their values and the
    additional port. *)
Theorem additional_annotation_overwrites_nothing (name : string) (port port' : Z) :
  AnnProm port ##ₘ AnnAdditionalProm name port'
  ∧ (AnnProm port ∪ AnnAdditionalProm name port') !! "prometheus.io/scrape" = Some "true"
  ∧ (AnnProm port ∪ AnnAdditionalProm name port') !! "prometheus.io/path" = Some "/metrics"
  ∧ (AnnProm port ∪ AnnAdditionalProm name port') !! "prometheus.io/port"
    = Some (Sprintf "%d" [a_int port])
  ∧ (AnnProm port ∪ AnnAdditionalProm name port') !! (name +:+ ".prometheus.io/port")
    = Some (Sprintf "%d" [a_int port'])
  ∧ size (AnnProm port ∪ AnnAdditionalProm name port') = 4.
Proof.
  unfold AnnProm, AnnAdditionalProm. rewrite additional_key.
  destruct (additional_key_is_new name) as (Hscrape & Hpath & Hport).
  assert (Hdisj : ({[ "prometheus.io/scrape" := "true";
                      "prometheus.io/path" := "/metrics";
                      "prometheus.io/port" := Sprintf "%d" [a_int port] ]}
                   : gmap string string)
                  ##ₘ {[ name +:+ ".prometheus.io/port" := Sprintf "%d" [a_int port'] ]}).
  { apply map_disjoint_singleton_r. by simplify_map_eq. }
  split; [ done | ].
  repeat split.
  - apply lookup_union_Some_l. by simplify_map_eq.
  - apply lookup_union_Some_l. by simplify_map_eq.
  - apply lookup_union_Some_l. by simplify_map_eq.
  - apply lookup_union_Some_r; [ done | ]. by simplify_map_eq.
  - rewrite map_size_disj_union by done. rewrite map_size_singleton.
    rewrite !map_size_insert_None by (by simplify_map_eq).
    by rewrite map_size_singleton.
Qed.
End Annotations_properties.

Lemma additional_annotation_overwrites_nothing_witness :
  @AnnProm text_printer 2379 ##ₘ @AnnAdditionalProm text_printer "tikv" 20180
  ∧ (@AnnProm text_printer 2379 ∪ @AnnAdditionalProm text_printer "tikv" 20180)
    !! "prometheus.io/scrape" = Some "true"
  ∧ (@AnnProm text_printer 2379 ∪ @AnnAdditionalProm text_printer "tikv" 20180)
    !! "prometheus.io/path" = Some "/metrics"
  ∧ (@AnnProm text_printer 2379 ∪ @AnnAdditionalProm text_printer "tikv" 20180)
    !! "prometheus.io/port" = Some (@Sprintf text_printer "%d" [a_int 2379])
  ∧ (@AnnProm text_printer 2379 ∪ @AnnAdditionalProm text_printer "tikv" 20180)
    !! ("tikv" +:+ ".prometheus.io/port") = Some (@Sprintf text_printer "%d" [a_int 20180])
  ∧ size (@AnnProm text_printer 2379 ∪ @AnnAdditionalProm text_printer "tikv" 20180) = 4.
Proof.
  exact (@additional_annotation_overwrites_nothing text_printer
           text_printer_renders_strings "tikv" 2379 20180).
Defined.
